(** * templer.core: the command-line front end [control_script.py]

    A shallow embedding of [Runner._process_args], [Runner._checkdots] and
    the name-resolution part of [Runner.__call__], together with the
    properties the specification states about them.

    Python values are modelled as follows:
    - [str] as [string], [int] as [Z], [None]-or-value as [option];
    - the [others] dict as [gmap string string];
    - a raised exception as the left injection of a sum, carrying the
      exception class and its message;
    - the list object passed to [_process_args] by explicit state passing:
      the function returns the content of the caller's list after the call
      next to its result. *)

From Stdlib Require Import ZArith Ascii String List Lia.
From stdpp Require Import base option gmap strings list.

Local Open Scope string_scope.
Local Open Scope Z_scope.

(** ** Python string methods used by the script *)

Module PyStr.

(** [s.find(c)] for a one-character needle: index of the first
    occurrence, [-1] when there is none. *)
Fixpoint find (c : ascii) (s : string) : Z :=
  match s with
  | EmptyString => -1
  | String a s' =>
      if Ascii.eqb a c then 0
      else let r := find c s' in if r =? -1 then -1 else r + 1
  end.

(** [s.count(c)] for a one-character needle. *)
Fixpoint count (c : ascii) (s : string) : Z :=
  match s with
  | EmptyString => 0
  | String a s' => (if Ascii.eqb a c then 1 else 0) + count c s'
  end.

(** [s.split(c)] for a one-character separator; never the empty list. *)
Fixpoint split (c : ascii) (s : string) : list string :=
  match s with
  | EmptyString => [EmptyString]
  | String a s' =>
      if Ascii.eqb a c then EmptyString :: split c s'
      else match split c s' with
           | [] => [String a EmptyString]
           | h :: t => String a h :: t
           end
  end.

Fixpoint startswith (p s : string) : bool :=
  match p, s with
  | EmptyString, _ => true
  | String a p', String b s' => Ascii.eqb a b && startswith p' s'
  | String _ _, EmptyString => false
  end.

(** [sub in s] *)
Fixpoint contains (sub s : string) : bool :=
  startswith sub s
  || match s with
     | EmptyString => false
     | String _ s' => contains sub s'
     end.

(** Truth value of an object that is [None] or a [str]. *)
Definition truthy (o : option string) : bool :=
  match o with
  | None => false
  | Some s => negb (String.eqb s EmptyString)
  end.

End PyStr.

(** ** Exceptions and results *)

Inductive exn : Type :=
| SyntaxError (msg : string)
| ValueError (msg : string)
| SystemExit (code : Z).

Definition result (A : Type) : Type := exn + A.

(** What the unpacking [key, val = ...] raises on three or more parts. *)
Definition too_many : exn := ValueError "too many values to unpack".

(** What [_checkdots] raises. *)
Definition black_hole : exn :=
  ValueError "Five dots should be more than enough, no black hole please".

Definition newline : string := String (ascii_of_nat 10) EmptyString.

(** [SVN_WARNING % script_name] *)
Definition SVN_WARNING (script_name : string) : string :=
  newline
  +:+ "For a number of reasons, the --svn-repository argument is not supported"
  +:+ newline +:+ "with the " +:+ script_name
  +:+ " script. Try --help for more information." +:+ newline.

(** ** The runner *)

(** The runner with the class-level [texts]; only [name] varies. *)
Record Runner : Type := { name : string }.

Definition templer_runner : Runner := {| name := "templer" |}.

(** What a template entry point exposes to the script. *)
Record Template : Type :=
  { summary : string;
    help : option string;
    ndots : option Z }.

(** Two templates: one without [ndots], one that expects one dot. *)
Definition no_depth : Template :=
  {| summary := "A basic Python project"; help := None; ndots := None |}.

Definition basic_namespace : Template :=
  {| summary := "A basic namespace project"; help := None; ndots := Some 1 |}.

(** *** [_process_args] *)

(** The loop variables [output_name] and [others]. *)
Definition arg_state : Type := option string * gmap string string.

(** One iteration of [for arg in args]. *)
Definition process_arg (self : Runner) (st : arg_state) (arg : string)
  : result arg_state :=
  let '(output_name, others) := st in
  let eq_index := PyStr.find "=" arg in
  if (eq_index =? -1) && negb (PyStr.truthy output_name) then
    inr (Some arg, others)
  else if 0 <? eq_index then
    (* key, val = arg.split('=') *)
    match PyStr.split "=" arg with
    | [key; val] =>
        if PyStr.contains "svn-repository" key
        then inl (SyntaxError (SVN_WARNING (name self)))
        else inr (output_name, <[key := val]> others)
    | [] => inl (ValueError "need more than 0 values to unpack")
    | [_] => inl (ValueError "need more than 1 value to unpack")
    | _ => inl too_many
    end
  else inl (SyntaxError arg).

Fixpoint for_args (self : Runner) (st : arg_state) (args : list string)
  : result arg_state :=
  match args with
  | [] => inr st
  | arg :: rest =>
      match process_arg self st arg with
      | inl e => inl e
      | inr st' => for_args self st' rest
      end
  end.

Definition parsed : Type := string * option string * gmap string string.

(** [_process_args self args]: the first component is the content of the
    list object [args] when the call ends ([args.pop(0)] removes its first
    element in place), the second what the call returns or raises. *)
Definition _process_args (self : Runner) (args : list string)
  : list string * result parsed :=
  match args with
  | [] => ([], inl (SyntaxError "No template name provided"))
  | template_name :: args' =>
      (args',
       match for_args self (None, ∅) args' with
       | inl e => inl e
       | inr (output_name, others) => inr (template_name, output_name, others)
       end)
  end.

(** *** [_checkdots] *)

Definition _checkdots (self : Runner) (template : Template) (name : string)
  : result unit :=
  let cdots := PyStr.count "." name in
  if 5 <? cdots then inl black_hole else inr tt.

(** *** The prompt loop of [__call__] *)

(** How one pass through the body of [while True] ends. *)
Inductive iteration : Type :=
| Break (output_name : string)
| Again
| Raised (e : exn).

(** The body with [answer] the string [command.challenge] returned. *)
Definition prompt_body (self : Runner) (template : Template) (answer : string)
  : iteration :=
  if String.eqb answer "q" then Raised (SystemExit 0)
  else match _checkdots self template answer with
       | inl e => Raised e        (* except ValueError, e: print ...; raise *)
       | inr _ => Break answer    (* else: break *)
       end.

(** The loop against the answers the operator will type, in order.
    [Waiting]: every answer was consumed and the loop prompts again. *)
Inductive prompted : Type :=
| Waiting
| Done (r : result string) (unread : list string).

Fixpoint prompt_loop (self : Runner) (template : Template)
  (answers : list string) : prompted :=
  match answers with
  | [] => Waiting
  | answer :: rest =>
      match prompt_body self template answer with
      | Break output_name => Done (inr output_name) rest
      | Again => prompt_loop self template rest
      | Raised e => Done (inl e) rest
      end
  end.

(** Name resolution when the run is not short-circuited: [if output_name:]
    checks a supplied, non-empty name once; otherwise the operator is
    prompted. *)
Definition resolve_name (self : Runner) (template : Template)
  (output_name : option string) (answers : list string) : prompted :=
  match output_name with
  | Some n =>
      if PyStr.truthy output_name then
        match _checkdots self template n with
        | inl e => Done (inl e) answers
        | inr _ => Done (inr n) answers
        end
      else prompt_loop self template answers
  | None => prompt_loop self template answers
  end.

(** ** Vocabulary of the specification *)

(** The token [key=value]. *)
Definition pair_token (key val : string) : string := key +:+ "=" +:+ val.

(** The key under which the script files a token, when it files it. *)
Definition key_of (arg : string) : option string :=
  if 0 <? PyStr.find "=" arg then
    match PyStr.split "=" arg with
    | [key; _] => Some key
    | _ => None
    end
  else None.

(** A token the script files as an override without raising. *)
Definition plain_pair (arg : string) : bool :=
  match key_of arg with
  | Some key => negb (PyStr.contains "svn-repository" key)
  | None => false
  end.

Definition is_letter (a : ascii) : bool :=
  let n := nat_of_ascii a in
  ((65 <=? n) && (n <=? 90) || (97 <=? n) && (n <=? 122))%nat.

Definition is_digit (a : ascii) : bool :=
  let n := nat_of_ascii a in ((48 <=? n) && (n <=? 57))%nat.

Fixpoint all_chars (p : ascii -> bool) (s : string) : bool :=
  match s with
  | EmptyString => true
  | String a s' => p a && all_chars p s'
  end.

(** The specification's legal identifier: starts with a letter or an
    underscore, continues with letters, digits or underscores. *)
Definition spec_legal_identifier (s : string) : bool :=
  match s with
  | EmptyString => false
  | String a s' =>
      (is_letter a || Ascii.eqb a "_")
      && all_chars (fun b => is_letter b || is_digit b || Ascii.eqb b "_") s'
  end.

(** ** ConfigResolver *)

Module ConfigResolver.

(** Modelled from the spec: the two ways interpolation fails; the
    script under verification has no configuration code. *)
Inductive config_error : Type :=
| CircularReferenceError (cycle : list string)
| UnknownVariableError (key : string).

(** Modelled from the spec: the persisted store, a [DEFAULT] section and
    template-named sections. The script under verification hands the
    file to the generator and holds no code for it. *)
Record ConfigStore : Type :=
  { DEFAULT : gmap string string;
    sections : gmap string (gmap string string) }.

(** Modelled from the spec: a value cut into literal text and
    placeholders; the module that reads values is missing. *)
Inductive piece : Type :=
| Lit (text : string)
| Ref (key : string).

(** Modelled from the spec: after an opening percent and parenthesis,
    the key and the text that follows the closing parenthesis and the
    letter s; the module that reads values is missing. *)
Fixpoint read_key (s : string) : option (string * string) :=
  match s with
  | EmptyString => None
  | String a s' =>
      if Ascii.eqb a ")" then
        match s' with
        | String b rest => if Ascii.eqb b "s" then Some (EmptyString, rest) else None
        | EmptyString => None
        end
      else match read_key s' with
           | Some (k, rest) => Some (String a k, rest)
           | None => None
           end
  end.

(** Modelled from the spec: the placeholder a value starts with, if any;
    the module that reads values is missing. *)
Definition placeholder_at (s : string) : option (string * string) :=
  match s with
  | String a (String b s') =>
      if Ascii.eqb a "%" && Ascii.eqb b "(" then read_key s' else None
  | _ => None
  end.

(** Modelled from the spec: the placeholders of a value, of the form
    percent, key in parentheses, letter s. [fuel] bounds the number of
    pieces; the length of the value is enough. *)
Fixpoint pieces (fuel : nat) (s : string) : list piece :=
  match fuel with
  | O => []
  | S f =>
      match placeholder_at s with
      | Some (k, rest) => Ref k :: pieces f rest
      | None =>
          match s with
          | EmptyString => []
          | String a s' => Lit (String a EmptyString) :: pieces f s'
          end
      end
  end.

(** Modelled from the spec: the two levels of the store a value can come
    from; the script under verification has no configuration code. *)
Inductive layer : Type :=
| TemplateSection
| DefaultSection.

Definition layer_eqb (a b : layer) : bool :=
  match a, b with
  | TemplateSection, TemplateSection => true
  | DefaultSection, DefaultSection => true
  | _, _ => false
  end.

(** Modelled from the spec: what a placeholder finds. A key is looked up
    in the template section first and falls back to [DEFAULT]; a value
    that is being expanded is not read again, so a template-section value
    that names its own key gets the [DEFAULT] value of that key. *)
Inductive found : Type :=
| Value (l : layer) (v : string)
| Busy
| Missing.

Definition free (stack : list (string * layer)) (key : string) (l : layer)
  : bool :=
  negb (existsb (fun kl => String.eqb kl.1 key && layer_eqb kl.2 l) stack).

Definition pick (section default : gmap string string)
  (stack : list (string * layer)) (key : string) : found :=
  let in_default :=
    match default !! key with
    | Some d => if free stack key DefaultSection
                then Some (Value DefaultSection d) else Some Busy
    | None => None
    end in
  match section !! key with
  | Some v =>
      if free stack key TemplateSection then Value TemplateSection v
      else match in_default with
           | Some f => f
           | None => Busy
           end
  | None =>
      match in_default with
      | Some f => f
      | None => Missing
      end
  end.

(** Modelled from the spec: the fully interpolated value of [key] for a
    template section over [DEFAULT]. [stack] holds the values being
    expanded, innermost first, each as its key and level; a placeholder
    that finds only such values closes a cycle. Each level of recursion
    adds a value of the store to the stack, so [fuel] above the number of
    values is never used up. *)
Fixpoint expand (section default : gmap string string) (fuel : nat)
  (stack : list (string * layer)) (key : string) : config_error + string :=
  match fuel with
  | O => inl (CircularReferenceError (rev (key :: map fst stack)))
  | S f =>
      match pick section default stack key with
      | Missing => inl (UnknownVariableError key)
      | Busy => inl (CircularReferenceError (rev (key :: map fst stack)))
      | Value l v =>
          (fix subst (ps : list piece) : config_error + string :=
             match ps with
             | [] => inr EmptyString
             | Lit t :: ps' =>
                 match subst ps' with
                 | inl e => inl e
                 | inr r => inr (t +:+ r)
                 end
             | Ref k :: ps' =>
                 match expand section default f ((key, l) :: stack) k with
                 | inl e => inl e
                 | inr x =>
                     match subst ps' with
                     | inl e => inl e
                     | inr r => inr (x +:+ r)
                     end
                 end
             end) (pieces (String.length v) v)
      end
  end.

(** Modelled from the spec: steps 1 and 2, the keys of the template
    section merged over [DEFAULT], every value interpolated. *)
Definition interpolate (section default : gmap string string)
  : config_error + gmap string string :=
  foldr (fun kv acc =>
           match acc with
           | inl e => inl e
           | inr done =>
               match expand section default
                       (S (size section + size default)) [] kv.1 with
               | inl e => inl e
               | inr v => inr (<[kv.1 := v]> done)
               end
           end)
        (inr ∅) (map_to_list (section ∪ default)).

(** Modelled from the spec: steps 1 to 3 of [resolve_for]. The template
    section wins over [DEFAULT], the values are interpolated, and the
    command-line overrides are written last over whatever is there. *)
Definition resolve_for (store : ConfigStore) (template_name : string)
  (cli_overrides : gmap string string)
  : config_error + gmap string string :=
  let section :=
    match sections store !! template_name with
    | Some section => section
    | None => ∅
    end in
  match interpolate section (DEFAULT store) with
  | inl e => inl e
  | inr vars =>
      inr (map_fold (fun k v acc => <[k := v]> acc) vars cli_overrides)
  end.


(** A store whose two values name each other. *)
Definition cyclic_store : ConfigStore :=
  {| DEFAULT := {[ "a" := "%(b)s"; "b" := "%(a)s" ]}; sections := ∅ |}.

(** The example of the script's help text. *)
Definition example_store : ConfigStore :=
  {| DEFAULT :=
       {[ "author_email" := "joel@joelburton.com";
          "license_name" := "GPL";
          "master_keywords" := "my common keywords here" ]};
     sections :=
       {[ "plone3_theme" :=
            {[ "empty_styles" := "False";
               "license_name" := "BSD";
               "keywords" := "%(master_keywords)s additional keywords" ]} ]} |}.

End ConfigResolver.

(** ** The report modes and the run itself *)

(** Builtins the rest of the script uses. *)
Module Py.

(** [len(s)] *)
Definition len (s : string) : Z := Z.of_nat (String.length s).

(** [s * n]: the empty string when [n] is not positive. *)
Definition mul (s : string) (n : Z) : string :=
  Nat.iter (Z.to_nat n) (String.append s) EmptyString.

(** [max(l)] of a list of integers; an empty list is a [ValueError]. *)
Definition max (l : list Z) : result Z :=
  match l with
  | [] => inl (ValueError "max() arg is an empty sequence")
  | x :: xs => inr (fold_left Z.max xs x)
  end.

(** [print >>s, line]: the line and a newline go to the end of the buffer. *)
Definition print_to (buf line : string) : string := buf +:+ line +:+ newline.

(** [sum(lists, [])] *)
Definition sum (A : Type) (lists : list (list A)) : list A :=
  fold_left (@app A) lists [].

(** [x in l] for a list of strings. *)
Definition mem (x : string) (l : list string) : bool :=
  existsb (String.eqb x) l.

End Py.

(** *** [_get_version_info] and [_format_version_info] *)

(** [pkg_resources.get_distribution] is taken as a function from a name to
    the project name and version of the distribution, [None] when it raises
    [DistributionNotFound]; [self.versions] is passed beside [self]. *)
Definition _get_version_info (self : Runner)
  (get_distribution : string -> option (string * string))
  (versions : list string) : list (string * string) :=
  map (fun package_name =>
         match get_distribution package_name with
         | Some dist => dist
         | None => (package_name, "Not Installed")
         end)
      versions.

(** The line of the table for one package. *)
Definition version_line (maxpkg : Z) (vi : string * string) : string :=
  let padding := maxpkg - Py.len vi.1 in
  "| " +:+ vi.1 +:+ ":" +:+ Py.mul " " padding +:+ " " +:+ vi.2.

(** The line under the header. *)
Definition version_rule (maxpkg maxver : Z) : string :=
  "+" +:+ Py.mul "-" (maxpkg + maxver + 3).

Definition _format_version_info (self : Runner)
  (version_info : list (string * string)) (header : option string)
  : result string :=
  match Py.max (map (fun vi => Py.len vi.1) version_info) with
  | inl e => inl e
  | inr maxpkg =>
      match Py.max (map (fun vi => Py.len vi.2) version_info) with
      | inl e => inl e
      | inr maxver =>
          let s :=
            match header with
            | Some h =>
                Py.print_to
                  (Py.print_to EmptyString (newline +:+ "| " +:+ h))
                  (version_rule maxpkg maxver)
            | None => EmptyString
            end in
          inr (fold_left
                 (fun s vi => Py.print_to s (version_line maxpkg vi))
                 version_info s)
      end
  end.

(** [show_version] always ends by raising: what it raises. *)
Definition show_version (self : Runner)
  (get_distribution : string -> option (string * string))
  (versions : list string) : exn :=
  let version_info := _get_version_info self get_distribution versions in
  match _format_version_info self version_info
          (Some "Installed Templer Packages") with
  | inl e => e
  | inr _ => SystemExit 0
  end.

(** *** [_list_printable_templates] and [usage] *)

(** What [list_sorted_templates] gives about a template. *)
Record entry : Type := { entry_name : string; entry_summary : string }.

(** The line of the listing for one template. It ends with a newline and
    is printed with a trailing comma, so nothing is written after it. *)
Definition template_line (max_name : Z) (e : entry) : string :=
  "|  " +:+ entry_name e +:+ ":"
  +:+ Py.mul " " (max_name - Py.len (entry_name e))
  +:+ " " +:+ entry_summary e +:+ newline.

(** [cats] is what [list_sorted_templates()] returns, as the list of its
    items in iteration order. *)
Definition _list_printable_templates (self : Runner)
  (cats : list (string * list entry)) : result string :=
  let templates := Py.sum entry (map snd cats) in
  match Py.max (map (fun x => Py.len (entry_name x)) templates) with
  | inl e => inl e
  | inr max_name =>
      inr (fold_left
             (fun s cat =>
                fold_left
                  (fun s e => s +:+ template_line max_name e)
                  cat.2
                  (Py.print_to s (newline +:+ cat.1 +:+ newline)))
             cats EmptyString)
  end.

(** [usage(exit)]: the text goes to standard output, which is not kept. *)
Definition usage (self : Runner) (cats : list (string * list entry))
  (exit : bool) : result unit :=
  match _list_printable_templates self cats with
  | inl e => inl e
  | inr templates => if exit then inl (SystemExit 0) else inr tt
  end.

(** *** [__call__] *)

(** How [command.run] ends. *)
Inductive run_result : Type :=
| Returned
| KeyboardInterrupt
| Failed (e : exn).

(** Where a call of the runner stands when it stops: the exception that
    leaves it ([None] while the prompt waits for the operator), the
    arguments [command.run] was called with if it was, the answers not
    read, and the content of the list object [argv]. *)
Record call_end : Type :=
  { raised : option exn;
    generator_args : option (list string);
    unread : list string;
    argv_left : list string }.

(** [optslist = ['%s=%s' % (k, v) for k, v in opts.items()]], for
    [items] the list [opts.items()] gives: the entries of the dict in the
    order of its hash table. *)
Definition optslist (items : list (string * string)) : list string :=
  map (fun kv => kv.1 +:+ "=" +:+ kv.2) items.

(** [__call__(argv)] against [dict.items] = [items],
    [list_sorted_templates()] = [cats], the entry points registered under
    a name, [command.run] and the answers the operator gives to
    [command.challenge]. The entry points and the [create] command are
    taken to load; standard output is not kept. *)
Definition __call__ (self : Runner)
  (items : gmap string string -> list (string * string))
  (cats : list (string * list entry))
  (entry_points : string -> list Template)
  (command_run : list string -> run_result)
  (answers : list string) (argv : list string) : call_end :=
  let '(argv, processed) := _process_args self argv in
  let stop (e : exn) :=
    {| raised := Some e; generator_args := None;
       unread := answers; argv_left := argv |} in
  match processed with
  | inl (SyntaxError msg) =>
      match usage self cats false with
      | inl e => stop e
      | inr _ => stop (SyntaxError msg)
      end
  | inl e => stop e
  | inr (template_name, output_name, opts) =>
      match entry_points template_name with
      | [] =>
          match usage self cats false with
          | inl e => stop e
          | inr _ => stop (SystemExit 1)
          end
      | template :: _ =>
          let short_circuit := Py.mem "--list-variables" argv in
          let special_args :=
            if short_circuit then ["--list-variables"] else [] in
          let run_with (output_name : option string) (unread : list string) :=
            let inserted :=
              match output_name with
              | Some n => n :: optslist (items opts)  (* insert(0, ...) *)
              | None => optslist (items opts)
              end in
            let args :=
              (["-q"; "-t"; template_name] ++ inserted ++ special_args)%list in
            {| raised :=
                 Some match command_run args with
                      | Returned => SystemExit 0
                      | KeyboardInterrupt => SystemExit 0
                      | Failed e => e
                      end;
               generator_args := Some args;
               unread := unread; argv_left := argv |} in
          if short_circuit then run_with None answers
          else
            match resolve_name self template output_name answers with
            | Waiting =>
                {| raised := None; generator_args := None;
                   unread := []; argv_left := argv |}
            | Done (inl e) unread =>
                {| raised := Some e; generator_args := None;
                   unread := unread; argv_left := argv |}
            | Done (inr n) unread => run_with (Some n) unread
            end
      end
  end.

(** *** Vocabulary for the properties of the run *)

(** The test [eq_index == -1]. *)
Definition is_bare (arg : string) : bool := PyStr.find "=" arg =? -1.

(** The pair the script unpacks from a token, when the unpacking works. *)
Definition override_of (arg : string) : option (string * string) :=
  if 0 <? PyStr.find "=" arg then
    match PyStr.split "=" arg with
    | [key; val] => Some (key, val)
    | _ => None
    end
  else None.

(** The value a token gives to [key], if it is a pair for that key. *)
Definition value_for (key arg : string) : option string :=
  match override_of arg with
  | Some (k, v) => if String.eqb k key then Some v else None
  | None => None
  end.

(** The value the last pair for [key] among [args] gives it. *)
Definition last_value (key : string) (args : list string) : option string :=
  last (omap (value_for key) args).

(** Every token without [=] that has another one after it is empty. *)
Definition lone_bare (args : list string) : Prop :=
  forall l1 a l2 b l3,
    args = (l1 ++ a :: l2 ++ b :: l3)%list ->
    is_bare a = true -> is_bare b = true -> a = EmptyString.

(** A key and a value as they sit in [others] after a parse. *)
Definition filed (key val : string) : Prop :=
  key <> EmptyString
  /\ PyStr.count "=" key = 0
  /\ PyStr.count "=" val = 0
  /\ PyStr.contains "svn-repository" key = false.

(** Lines written one after the other, each ended by a newline. *)
Definition join_lines (lines : list string) : string :=
  fold_right (fun row acc => row +:+ newline +:+ acc) EmptyString lines.

(** The line of the listing for one template, without its newline. *)
Definition template_row (max_name : Z) (e : entry) : string :=
  "|  " +:+ entry_name e +:+ ":"
  +:+ Py.mul " " (max_name - Py.len (entry_name e))
  +:+ " " +:+ entry_summary e.

(** The lines of the listing for one category. *)
Definition category_block (max_name : Z) (cat : string * list entry)
  : list string :=
  EmptyString :: cat.1 :: EmptyString :: map (template_row max_name) cat.2.

(** ** Facts about the string methods *)

Section StringFacts.

Variable c : ascii.

Lemma count_nonneg (s : string) : 0 <= PyStr.count c s.
Proof.
  induction s as [|a s IH]; simpl; [lia|].
  destruct (Ascii.eqb a c); lia.
Qed.

Lemma count_cons_zero (a : ascii) (s : string) :
  PyStr.count c (String a s) = 0 ->
  Ascii.eqb a c = false /\ PyStr.count c s = 0.
Proof.
  simpl. pose proof (count_nonneg s).
  destruct (Ascii.eqb a c); split; (reflexivity || lia).
Qed.


Lemma find_sep (k v : string) :
  PyStr.count c k = 0 ->
  PyStr.find c (k +:+ String c v) = Z.of_nat (String.length k).
Proof.
  induction k as [|a k IH].
  - intros _. simpl. rewrite Ascii.eqb_refl. reflexivity.
  - intros [Ha Hk]%count_cons_zero.
    change (String a k +:+ String c v) with (String a (k +:+ String c v)).
    cbn [PyStr.find String.length]. rewrite Ha, (IH Hk).
    destruct (Z.eqb_spec (Z.of_nat (String.length k)) (-1)); lia.
Qed.

Lemma split_absent (s : string) : PyStr.count c s = 0 -> PyStr.split c s = [s].
Proof.
  induction s as [|a s IH]; [reflexivity|].
  intros [Ha Hs]%count_cons_zero. simpl. rewrite Ha, (IH Hs). reflexivity.
Qed.

Lemma split_sep (k v : string) :
  PyStr.count c k = 0 ->
  PyStr.split c (k +:+ String c v) = k :: PyStr.split c v.
Proof.
  induction k as [|a k IH].
  - intros _. simpl. rewrite Ascii.eqb_refl. reflexivity.
  - intros [Ha Hk]%count_cons_zero.
    change (String a k +:+ String c v) with (String a (k +:+ String c v)).
    cbn [PyStr.split]. rewrite Ha, (IH Hk). reflexivity.
Qed.

Lemma split_length (s : string) :
  Z.of_nat (length (PyStr.split c s)) = 1 + PyStr.count c s.
Proof.
  induction s as [|a s IH]; [reflexivity|].
  pose proof (count_nonneg s). simpl. destruct (Ascii.eqb a c).
  - cbn [length]. lia.
  - destruct (PyStr.split c s) as [|h t]; cbn [length] in *; lia.
Qed.

Lemma split_present (s : string) :
  0 < PyStr.count c s -> exists x y l, PyStr.split c s = x :: y :: l.
Proof.
  intros H. pose proof (split_length s) as L.
  destruct (PyStr.split c s) as [|x [|y l]]; cbn [length] in L;
    [lia | lia | eauto].
Qed.

End StringFacts.

(** ** Facts about one iteration of [for arg in args] *)

Section ProcessArgFacts.

Variable self : Runner.



Lemma pair_token_find (key val : string) :
  key <> EmptyString -> PyStr.count "=" key = 0 ->
  0 < PyStr.find "=" (pair_token key val).
Proof.
  intros Hne Hk. unfold pair_token.
  change ("=" +:+ val) with (String "=" val). rewrite (find_sep _ _ _ Hk).
  destruct key; [contradiction | cbn [String.length]; lia].
Qed.

Lemma pair_token_split (key val : string) :
  PyStr.count "=" key = 0 ->
  PyStr.split "=" (pair_token key val) = key :: PyStr.split "=" val.
Proof.
  intros Hk. unfold pair_token.
  change ("=" +:+ val) with (String "=" val). apply split_sep, Hk.
Qed.

Lemma process_arg_pair (o : option string) (m : gmap string string)
  (key val : string) :
  key <> EmptyString -> PyStr.count "=" key = 0 -> PyStr.count "=" val = 0 ->
  process_arg self (o, m) (pair_token key val)
  = if PyStr.contains "svn-repository" key
    then inl (SyntaxError (SVN_WARNING (name self)))
    else inr (o, <[key := val]> m).
Proof.
  intros Hne Hk Hv. pose proof (pair_token_find key val Hne Hk) as Hf.
  unfold process_arg.
  rewrite (pair_token_split _ _ Hk), (split_absent _ _ Hv).
  destruct (Z.eqb_spec (PyStr.find "=" (pair_token key val)) (-1)); [lia|].
  destruct (Z.ltb_spec 0 (PyStr.find "=" (pair_token key val))); [|lia].
  reflexivity.
Qed.

Lemma process_arg_unpack (o : option string) (m : gmap string string)
  (key val : string) :
  key <> EmptyString -> PyStr.count "=" key = 0 -> 0 < PyStr.count "=" val ->
  process_arg self (o, m) (pair_token key val) = inl too_many.
Proof.
  intros Hne Hk Hv. pose proof (pair_token_find key val Hne Hk) as Hf.
  destruct (split_present _ _ Hv) as (x & y & l & Hs).
  unfold process_arg. rewrite (pair_token_split _ _ Hk), Hs.
  destruct (Z.eqb_spec (PyStr.find "=" (pair_token key val)) (-1)); [lia|].
  destruct (Z.ltb_spec 0 (PyStr.find "=" (pair_token key val))); [|lia].
  reflexivity.
Qed.

Lemma process_arg_plain (o : option string) (m : gmap string string)
  (arg : string) :
  plain_pair arg = true ->
  exists k v, PyStr.split "=" arg = [k; v]
              /\ process_arg self (o, m) arg = inr (o, <[k := v]> m).
Proof.
  unfold plain_pair, key_of, process_arg.
  destruct (Z.ltb_spec 0 (PyStr.find "=" arg)) as [Hf|]; [|discriminate].
  destruct (Z.eqb_spec (PyStr.find "=" arg) (-1)); [lia|]. cbn [andb].
  destruct (PyStr.split "=" arg) as [|k [|v [|]]]; try discriminate.
  destruct (PyStr.contains "svn-repository" k); [discriminate|]. eauto.
Qed.


(** A passing iteration writes at most the key of its token. *)
Lemma process_arg_other_key (o o' : option string)
  (m m' : gmap string string) (arg key : string) :
  process_arg self (o, m) arg = inr (o', m') ->
  key_of arg <> Some key -> m' !! key = m !! key.
Proof.
  unfold process_arg, key_of. intros H Hk.
  destruct ((PyStr.find "=" arg =? -1) && negb (PyStr.truthy o));
    [congruence|].
  destruct (0 <? PyStr.find "=" arg); [|discriminate].
  destruct (PyStr.split "=" arg) as [|k [|v [|]]]; try discriminate.
  destruct (PyStr.contains "svn-repository" k); [discriminate|].
  injection H as _ <-. apply lookup_insert_ne. congruence.
Qed.

(** *** The whole loop *)

Lemma for_args_app (st : arg_state) (l1 l2 : list string) :
  for_args self st (l1 ++ l2)
  = match for_args self st l1 with
    | inl e => inl e
    | inr st' => for_args self st' l2
    end.
Proof.
  revert st. induction l1 as [|a l1 IH]; intros st; [reflexivity|].
  cbn [app for_args]. destruct (process_arg self st a); [reflexivity|].
  apply IH.
Qed.


Lemma for_args_other_key (key : string) (l : list string) :
  forall (o o' : option string) (m m' : gmap string string),
    for_args self (o, m) l = inr (o', m') ->
    Forall (fun arg => key_of arg <> Some key) l ->
    m' !! key = m !! key.
Proof.
  induction l as [|a l IH]; intros o o' m m' H Hl.
  - cbn in H. congruence.
  - cbn [for_args] in H. inversion Hl as [|? ? Ha Hl']; subst.
    destruct (process_arg self (o, m) a) as [e|[o1 m1]] eqn:E;
      [discriminate|].
    rewrite (IH _ _ _ _ H Hl').
    exact (process_arg_other_key _ _ _ _ _ _ E Ha).
Qed.

Lemma for_args_plain (l : list string) :
  forall (o : option string) (m : gmap string string),
    Forall (fun arg => plain_pair arg = true) l ->
    exists m', for_args self (o, m) l = inr (o, m').
Proof.
  induction l as [|a l IH]; intros o m Hl.
  - exists m. reflexivity.
  - inversion Hl as [|? ? Ha Hl']; subst.
    destruct (process_arg_plain o m a Ha) as (k & v & _ & E).
    cbn [for_args]. rewrite E. apply IH, Hl'.
Qed.

End ProcessArgFacts.

(** ** [_process_args] against the specification *)

(** The runs the specification lists as scenarios. *)
Example scenario_template_only :
  snd (_process_args templer_runner ["skel"]) = inr ("skel", None, ∅).
Proof. reflexivity. Qed.

Example scenario_name_and_override :
  snd (_process_args templer_runner ["skel"; "foo.bar"; "author=me"])
  = inr ("skel", Some "foo.bar", {[ "author" := "me" ]}).
Proof. vm_compute. reflexivity. Qed.

Example scenario_leading_equals :
  snd (_process_args templer_runner ["skel"; "=foo"])
  = inl (SyntaxError "=foo").
Proof. reflexivity. Qed.

Example scenario_no_tokens :
  _process_args templer_runner []
  = ([], inl (SyntaxError "No template name provided")).
Proof. reflexivity. Qed.


(** C10. A token whose first [=] comes after the first character and whose
    value part holds a further [=] makes its iteration raise the
    [ValueError] of the two-target unpacking, whatever the loop variables
    are; so does the whole parse once the tokens before it have passed. The
    token is neither filed as an override nor reported with the
    [SyntaxError] the caller handles. *)
Theorem C10_second_equals_raises_value_error
  (self : Runner) (key val : string)
  (Hne : key <> EmptyString)
  (Hkey : PyStr.count "=" key = 0)
  (Hval : 0 < PyStr.count "=" val) :
  (forall st, process_arg self st (pair_token key val) = inl too_many)
  /\ (forall template_name pre post st,
         for_args self (None, ∅) pre = inr st ->
         snd (_process_args self
                (template_name :: pre ++ pair_token key val :: post))
         = inl too_many).
Proof.
  assert (forall st, process_arg self st (pair_token key val) = inl too_many)
    as Hstep.
  { intros [o m]. apply process_arg_unpack; assumption. }
  split; [exact Hstep|].
  intros template_name pre post st Hpre. cbn [_process_args snd].
  rewrite for_args_app, Hpre. cbn [for_args]. rewrite Hstep. reflexivity.
Qed.

Lemma C10_witness :
  snd (_process_args templer_runner ["skel"; "author=me"; "a=b=c"; "x"])
  = inl too_many.
Proof.
  refine (proj2 (C10_second_equals_raises_value_error
                   templer_runner "a" "b=c" _ _ _)
                "skel" ["author=me"] ["x"] (None, {["author" := "me"]}) _).
  - discriminate.
  - reflexivity.
  - reflexivity.
  - vm_compute. reflexivity.
Defined.

(** C9, as the script has it. A token [key=value] with a non-empty key
    that does not contain [svn-repository], and with no [=] in key or
    value, files [key -> value] over whatever the key held. In a parse that
    returns, the key holds the value of its last token. Repeated keys raise
    nothing: a sequence of such tokens always parses. *)
Theorem C9_override_last_occurrence_wins
  (self : Runner) (template_name : string) (pre post : list string)
  (key val : string)
  (Hne : key <> EmptyString)
  (Hkey : PyStr.count "=" key = 0)
  (Hval : PyStr.count "=" val = 0)
  (Hsvn : PyStr.contains "svn-repository" key = false) :
  let args := template_name :: pre ++ pair_token key val :: post in
  (forall o m,
      process_arg self (o, m) (pair_token key val)
      = inr (o, <[key := val]> m))
  /\ (forall res,
         snd (_process_args self args) = inr res ->
         Forall (fun arg => key_of arg <> Some key) post ->
         res.2 !! key = Some val)
  /\ (Forall (fun arg => plain_pair arg = true) pre ->
      Forall (fun arg => plain_pair arg = true) post ->
      exists others,
        snd (_process_args self args) = inr (template_name, None, others)).
Proof.
  assert (forall o m, process_arg self (o, m) (pair_token key val)
                      = inr (o, <[key := val]> m)) as Hstep.
  { intros o m. rewrite process_arg_pair by assumption.
    rewrite Hsvn. reflexivity. }
  cbn zeta. split; [exact Hstep|]. cbn [_process_args snd].
  rewrite for_args_app. split.
  - intros res Hres Hpost.
    destruct (for_args self (None, ∅) pre) as [e|[o1 m1]]; [discriminate|].
    cbn [for_args] in Hres. rewrite Hstep in Hres.
    destruct (for_args self (o1, <[key := val]> m1) post)
      as [e|[o2 m2]] eqn:E; [discriminate|].
    injection Hres as <-. cbn.
    rewrite (for_args_other_key self key post _ _ _ _ E Hpost).
    apply lookup_insert_eq.
  - intros Hpre Hpost.
    destruct (for_args_plain self pre None ∅ Hpre) as [m1 ->].
    cbn [for_args]. rewrite Hstep.
    destruct (for_args_plain self post None (<[key := val]> m1) Hpost)
      as [m2 ->].
    exists m2. reflexivity.
Qed.

Lemma C9_witness :
  exists others,
    snd (_process_args templer_runner
           ["skel"; "author=me"; "a=1"; "a=2"; "b=3"])
    = inr ("skel", None, others)
    /\ others !! "a" = Some "2".
Proof.
  destruct (C9_override_last_occurrence_wins
              templer_runner "skel" ["author=me"; "a=1"] ["b=3"] "a" "2")
    as (_ & Hlast & Hok).
  - discriminate.
  - reflexivity.
  - reflexivity.
  - reflexivity.
  - destruct Hok as [others Hothers].
    + repeat constructor.
    + repeat constructor.
    + exists others. split; [exact Hothers|].
      apply (Hlast _ Hothers). repeat constructor. discriminate.
Defined.

(** C9 as written fails: a token with the non-empty key [svn-repository]
    files nothing, the parse raises. *)
Lemma C9_counterexample :
  pair_token "svn-repository" "x" = "svn-repository=x"
  /\ snd (_process_args templer_runner ["skel"; "svn-repository=x"])
     = inl (SyntaxError (SVN_WARNING "templer")).
Proof. split; reflexivity. Qed.




(** C5, as the script has it. The call removes the first token from the
    list it is given and changes nothing else of it, whether it returns or
    raises; what it returns and what it leaves depend on the runner and the
    tokens only, so calls on equal token lists agree. *)
Theorem C5_process_args_pops_the_template_name
  (self : Runner) (args1 args2 : list string)
  (Heq : args1 = args2) :
  fst (_process_args self args1) = tail args1
  /\ _process_args self args1 = _process_args self args2.
Proof.
  subst args2. split; [|reflexivity]. destruct args1; reflexivity.
Qed.

Lemma C5_witness :
  fst (_process_args templer_runner ["skel"; "foo.bar"; "author=me"])
  = ["foo.bar"; "author=me"].
Proof.
  exact (proj1 (C5_process_args_pops_the_template_name
                  templer_runner ["skel"; "foo.bar"; "author=me"]
                  ["skel"; "foo.bar"; "author=me"] eq_refl)).
Defined.

(** C5 as written fails: the caller's list is one token shorter after the
    call, and a second call on that same list object parses what is left. *)
Lemma C5_counterexample :
  let args := ["skel"; "foo.bar"] in
  let after := fst (_process_args templer_runner args) in
  after <> args
  /\ snd (_process_args templer_runner args) = inr ("skel", Some "foo.bar", ∅)
  /\ snd (_process_args templer_runner after) = inr ("foo.bar", None, ∅).
Proof. repeat split. discriminate. Qed.

(** ** [_checkdots] against the specification *)

(** C8. A name with more than five dots is refused, whatever the template
    asks for. *)
Theorem C8_more_than_five_dots_is_refused
  (self : Runner) (template : Template) (name : string)
  (Hdots : 5 < PyStr.count "." name) :
  _checkdots self template name = inl black_hole.
Proof.
  unfold _checkdots. destruct (Z.ltb_spec 5 (PyStr.count "." name)); [|lia].
  reflexivity.
Qed.

Lemma C8_witness :
  _checkdots templer_runner
    {| summary := ""; help := None; ndots := Some 6 |} "a.b.c.d.e.f.g"
  = inl black_hole.
Proof.
  apply C8_more_than_five_dots_is_refused. reflexivity.
Defined.

(** C1 fails on the script: the check reads neither the segments nor the
    template. The name [foo..bar] has an empty segment and the name
    [foo.1bar] a segment that starts with a digit; neither segment is a
    legal identifier and both names pass. *)
Theorem C1_illegal_segments_pass (self : Runner) (template : Template) :
  PyStr.split "." "foo..bar" = ["foo"; ""; "bar"]
  /\ spec_legal_identifier "" = false
  /\ _checkdots self template "foo..bar" = inr tt
  /\ PyStr.split "." "foo.1bar" = ["foo"; "1bar"]
  /\ spec_legal_identifier "1bar" = false
  /\ _checkdots self template "foo.1bar" = inr tt.
Proof. repeat split. Qed.

(** C2, as the script has it. A name whose dot count is at most five, equal
    to the depth the template expects when it expects one, and whose
    segments are all legal identifiers, passes. *)
Theorem C2_well_formed_name_within_five_dots_passes
  (self : Runner) (template : Template) (name : string)
  (Hceiling : PyStr.count "." name <= 5)
  (Hdepth : forall d, ndots template = Some d -> PyStr.count "." name = d)
  (Hsegments : forallb spec_legal_identifier (PyStr.split "." name) = true) :
  _checkdots self template name = inr tt.
Proof.
  unfold _checkdots. destruct (Z.ltb_spec 5 (PyStr.count "." name)); [lia|].
  reflexivity.
Qed.

Lemma C2_witness :
  _checkdots templer_runner basic_namespace "foo.bar" = inr tt.
Proof.
  apply C2_well_formed_name_within_five_dots_passes.
  - vm_compute. discriminate.
  - intros d Hd. injection Hd as <-. reflexivity.
  - reflexivity.
Defined.

(** C2 as written fails: with no expected depth, and also with an expected
    depth of six that the name meets, a name of seven legal segments is
    refused. *)
Lemma C2_counterexample :
  let name := "a.b.c.d.e.f.g" in
  let six := {| summary := ""; help := None; ndots := Some 6 |} in
  forallb spec_legal_identifier (PyStr.split "." name) = true
  /\ ndots no_depth = None
  /\ _checkdots templer_runner no_depth name = inl black_hole
  /\ ndots six = Some (PyStr.count "." name)
  /\ _checkdots templer_runner six name = inl black_hole.
Proof. repeat split. Qed.

(** ** The prompt loop against the specification *)

(** C3 fails on the script: the handler of the loop prints the error and
    raises it again, so no pass through the body asks for another one. A
    first answer with six dots ends the loop with the [ValueError], and the
    answers the operator would have typed next stay unread. *)
Theorem C3_prompt_loop_ends_on_a_refused_name
  (self : Runner) (template : Template) (unread : list string) :
  (forall answer, prompt_body self template answer <> Again)
  /\ (forall answer, exists r,
         prompt_loop self template (answer :: unread) = Done r unread)
  /\ prompt_loop self template ("a.b.c.d.e.f.g" :: unread)
     = Done (inl black_hole) unread
  /\ resolve_name self template None ("a.b.c.d.e.f.g" :: "foo" :: unread)
     = Done (inl black_hole) ("foo" :: unread).
Proof.
  split; [|split; [|split; reflexivity]].
  - intros answer. unfold prompt_body.
    destruct (String.eqb answer "q"); [discriminate|].
    destruct (_checkdots self template answer); discriminate.
  - intros answer. cbn [prompt_loop]. unfold prompt_body.
    destruct (String.eqb answer "q"); [eauto|].
    destruct (_checkdots self template answer); eauto.
Qed.

(** The two exits the loop does have: [q] leaves with exit code 0, a name
    that passes the check is kept. *)
Example prompt_loop_quit (self : Runner) (template : Template) :
  prompt_loop self template ["q"; "foo"] = Done (inl (SystemExit 0)) ["foo"].
Proof. reflexivity. Qed.

Example prompt_loop_accepts (self : Runner) (template : Template) :
  prompt_loop self template ["foo.bar"] = Done (inr "foo.bar") [].
Proof. reflexivity. Qed.

(** ** [resolve_for] against the specification *)

Import ConfigResolver.




(** The runs of the specification on the model: the example of the help
    text, two values that name each other, and a placeholder for a key
    that is nowhere. *)
Example help_text_store_resolves :
  resolve_for example_store "plone3_theme" {[ "license_name" := "MIT" ]}
  = inr {[ "author_email" := "joel@joelburton.com";
           "master_keywords" := "my common keywords here";
           "empty_styles" := "False";
           "keywords" := "my common keywords here additional keywords";
           "license_name" := "MIT" ]}.
Proof. vm_compute. reflexivity. Qed.

Example cyclic_store_is_refused :
  resolve_for cyclic_store "plone3_theme" {[ "a" := "x" ]}
  = inl (CircularReferenceError ["b"; "a"; "b"]).
Proof. vm_compute. reflexivity. Qed.

Example unknown_key_is_refused :
  resolve_for
    {| DEFAULT := {[ "a" := "%(missing)s" ]}; sections := ∅ |}
    "plone3_theme" ∅
  = inl (UnknownVariableError "missing").
Proof. vm_compute. reflexivity. Qed.


(** ** Further facts about the string methods *)

Section MoreStringFacts.

Variable c : ascii.

Lemma count_present (s : string) :
  0 < PyStr.count c s ->
  exists k v, s = k +:+ String c v
              /\ PyStr.count c k = 0
              /\ PyStr.count c v = PyStr.count c s - 1.
Proof.
  induction s as [|a s IH]; cbn [PyStr.count]; [lia|].
  destruct (Ascii.eqb_spec a c) as [->|Hac]; intros H.
  - exists EmptyString, s. repeat split. lia.
  - destruct IH as (k & v & -> & Hk & Hv); [lia|].
    exists (String a k), v. repeat split; [|lia].
    cbn [PyStr.count]. destruct (Ascii.eqb_spec a c); [contradiction | lia].
Qed.

Lemma split_two (s k v : string) :
  PyStr.split c s = [k; v] ->
  s = k +:+ String c v /\ PyStr.count c k = 0 /\ PyStr.count c v = 0.
Proof.
  intros H. pose proof (split_length c s) as L. rewrite H in L.
  cbn [length] in L.
  destruct (count_present s) as (k' & v' & -> & Hk & Hv); [lia|].
  rewrite (split_sep c _ _ Hk), (split_absent c v') in H by lia.
  injection H as -> ->. repeat split; [assumption | lia].
Qed.

Lemma count_app (s1 s2 : string) :
  PyStr.count c (s1 +:+ s2) = PyStr.count c s1 + PyStr.count c s2.
Proof.
  induction s1 as [|a s1 IH]; [reflexivity|].
  change (String a s1 +:+ s2) with (String a (s1 +:+ s2)).
  cbn [PyStr.count]. rewrite IH. lia.
Qed.

End MoreStringFacts.

Lemma len_app (s1 s2 : string) : Py.len (s1 +:+ s2) = Py.len s1 + Py.len s2.
Proof.
  unfold Py.len. induction s1 as [|a s1 IH]; [reflexivity|].
  change (String a s1 +:+ s2) with (String a (s1 +:+ s2)).
  cbn [String.length]. lia.
Qed.

Lemma app_assoc_string (s1 s2 s3 : string) :
  (s1 +:+ s2) +:+ s3 = s1 +:+ (s2 +:+ s3).
Proof.
  induction s1 as [|a s1 IH]; [reflexivity|].
  change (String a s1 +:+ s2) with (String a (s1 +:+ s2)).
  change (String a (s1 +:+ s2) +:+ s3) with (String a ((s1 +:+ s2) +:+ s3)).
  rewrite IH. reflexivity.
Qed.

(** ** Further facts about [for arg in args] *)

Section ParseFacts.

Variable self : Runner.

Lemma override_of_pair (arg k v : string) :
  override_of arg = Some (k, v) ->
  arg = pair_token k v
  /\ k <> EmptyString
  /\ PyStr.count "=" k = 0
  /\ PyStr.count "=" v = 0.
Proof.
  unfold override_of.
  destruct (Z.ltb_spec 0 (PyStr.find "=" arg)) as [Hf|]; [|discriminate].
  destruct (PyStr.split "=" arg) as [|k' [|v' [|]]] eqn:Hs; try discriminate.
  intros [= -> ->]. destruct (split_two _ _ _ _ Hs) as (-> & Hk & Hv).
  repeat split; try assumption. intros ->.
  change (0 < PyStr.find "=" (String "=" v)) in Hf.
  cbn [PyStr.find] in Hf. rewrite Ascii.eqb_refl in Hf. lia.
Qed.

Lemma key_of_override (arg : string) : key_of arg = fst <$> override_of arg.
Proof.
  unfold key_of, override_of. destruct (0 <? PyStr.find "=" arg); [|reflexivity].
  destruct (PyStr.split "=" arg) as [|k [|v [|]]]; reflexivity.
Qed.

Lemma override_of_token (k v : string) :
  k <> EmptyString -> PyStr.count "=" k = 0 -> PyStr.count "=" v = 0 ->
  override_of (pair_token k v) = Some (k, v).
Proof.
  intros Hne Hk Hv. unfold override_of.
  pose proof (pair_token_find k v Hne Hk) as Hf.
  destruct (Z.ltb_spec 0 (PyStr.find "=" (pair_token k v))); [|lia].
  rewrite (pair_token_split _ _ Hk), (split_absent _ _ Hv). reflexivity.
Qed.

(** The iteration on a token without [=]. *)
Lemma process_arg_is_bare (o : option string) (m : gmap string string)
  (arg : string) :
  is_bare arg = true ->
  process_arg self (o, m) arg
  = if PyStr.truthy o then inl (SyntaxError arg) else inr (Some arg, m).
Proof.
  unfold is_bare, process_arg. intros ->%Z.eqb_eq.
  destruct (PyStr.truthy o); reflexivity.
Qed.

(** The iteration on a token with [=]. *)
Lemma process_arg_not_bare (o : option string) (m : gmap string string)
  (arg : string) :
  is_bare arg = false ->
  process_arg self (o, m) arg
  = match override_of arg with
    | Some (k, v) =>
        if PyStr.contains "svn-repository" k
        then inl (SyntaxError (SVN_WARNING (name self)))
        else inr (o, <[k := v]> m)
    | None =>
        match process_arg self (o, m) arg with
        | inl e => inl e
        | inr _ => inl (SyntaxError arg)
        end
    end.
Proof.
  unfold is_bare, process_arg, override_of. intros ->. cbn [andb].
  destruct (0 <? PyStr.find "=" arg); [|reflexivity].
  destruct (PyStr.split "=" arg) as [|k [|v [|]]]; reflexivity.
Qed.

Lemma process_arg_rejects (o : option string) (m : gmap string string)
  (arg : string) :
  is_bare arg = false -> plain_pair arg = false ->
  exists e, process_arg self (o, m) arg = inl e.
Proof.
  intros Hb Hp. rewrite (process_arg_not_bare _ _ _ Hb).
  unfold plain_pair in Hp. rewrite key_of_override in Hp.
  destruct (override_of arg) as [[k v]|]; cbn in Hp.
  - destruct (PyStr.contains "svn-repository" k); [eauto | discriminate].
  - destruct (process_arg self (o, m) arg); eauto.
Qed.

Lemma plain_pair_not_bare (arg : string) :
  plain_pair arg = true -> is_bare arg = false.
Proof.
  unfold plain_pair, key_of, is_bare.
  destruct (Z.ltb_spec 0 (PyStr.find "=" arg)); [|discriminate].
  intros _. apply Z.eqb_neq. lia.
Qed.

Lemma truthy_Some (s : string) :
  PyStr.truthy (Some s) = true <-> s <> EmptyString.
Proof.
  unfold PyStr.truthy.
  destruct (String.eqb_spec s EmptyString); cbn; split; intros H;
    congruence.
Qed.

Lemma lone_bare_tail (a : string) (l : list string) :
  lone_bare (a :: l) -> lone_bare l.
Proof.
  intros H l1 x l2 y l3 ->. apply (H (a :: l1) x l2 y l3). reflexivity.
Qed.

Lemma lone_bare_head (a : string) (l : list string) :
  lone_bare (a :: l) -> is_bare a = true -> a <> EmptyString ->
  Forall (fun b => is_bare b = false) l.
Proof.
  intros H Ha Hne. apply List.Forall_forall. intros b Hb.
  destruct (List.in_split _ _ Hb) as (l2 & l3 & ->).
  destruct (is_bare b) eqn:E; [|reflexivity].
  exfalso. apply Hne. exact (H [] a l2 b l3 eq_refl Ha E).
Qed.

Lemma lone_bare_cons (a : string) (l : list string) :
  lone_bare l ->
  (is_bare a = true -> a <> EmptyString ->
   Forall (fun b => is_bare b = false) l) ->
  lone_bare (a :: l).
Proof.
  intros Hl Ha [|x l1] y l2 z l3 E Hy Hz.
  - cbn in E. injection E as <- ->.
    destruct (String.eqb_spec a EmptyString) as [|Hne]; [assumption|].
    pose proof (Ha Hy Hne) as Hnb. rewrite List.Forall_forall in Hnb.
    rewrite (Hnb z) in Hz; [discriminate|].
    apply List.in_or_app. right. left. reflexivity.
  - cbn in E. injection E as _ ->. exact (Hl l1 y l2 z l3 eq_refl Hy Hz).
Qed.

Lemma process_arg_files (o o1 : option string) (m m1 : gmap string string)
  (arg : string) :
  is_bare arg = false ->
  process_arg self (o, m) arg = inr (o1, m1) ->
  o1 = o
  /\ exists k v, override_of arg = Some (k, v)
                 /\ m1 = <[k := v]> m
                 /\ PyStr.contains "svn-repository" k = false.
Proof.
  intros Hb H. rewrite (process_arg_not_bare _ _ _ Hb) in H.
  destruct (override_of arg) as [[k v]|].
  - destruct (PyStr.contains "svn-repository" k) eqn:Hsvn; [discriminate|].
    injection H as <- <-. eauto 6.
  - destruct (process_arg self (o, m) arg); discriminate.
Qed.

Lemma is_bare_no_override (arg : string) :
  is_bare arg = true -> override_of arg = None.
Proof.
  unfold is_bare, override_of. intros ->%Z.eqb_eq. reflexivity.
Qed.

(** Which token lists the loop takes, from any state of its variables. *)
Lemma for_args_accepts (l : list string) :
  forall (o : option string) (m : gmap string string),
    (exists st, for_args self (o, m) l = inr st)
    <-> Forall (fun a => is_bare a = true \/ plain_pair a = true) l
        /\ (PyStr.truthy o = true -> Forall (fun a => is_bare a = false) l)
        /\ lone_bare l.
Proof.
  induction l as [|a l IH]; intros o m.
  - split.
    + intros _. split; [constructor|]. split; [intros _; constructor|].
      intros [|? ?] ? ? ? ? E; discriminate.
    + intros _. eexists. reflexivity.
  - cbn [for_args]. destruct (is_bare a) eqn:Ha.
    + rewrite (process_arg_is_bare _ _ _ Ha).
      destruct (PyStr.truthy o) eqn:Ho.
      * split; [intros [st H]; discriminate|].
        intros (_ & H & _). specialize (H eq_refl).
        inversion H; congruence.
      * rewrite IH. split.
        -- intros (Hok & Hnb & Hl).
           split; [constructor; [left; exact Ha | exact Hok]|].
           split; [intros; discriminate|].
           apply lone_bare_cons; [exact Hl|].
           intros _ Hne. apply Hnb, truthy_Some, Hne.
        -- intros (Hok & _ & Hl). inversion Hok; subst.
           split; [assumption|].
           split; [|exact (lone_bare_tail _ _ Hl)].
           intros Ht%truthy_Some. exact (lone_bare_head _ _ Hl Ha Ht).
    + destruct (plain_pair a) eqn:Hp.
      * destruct (process_arg_plain self o m a Hp) as (k & v & _ & ->).
        rewrite IH. split.
        -- intros (Hok & Hnb & Hl).
           split; [constructor; [right; exact Hp | exact Hok]|].
           split; [intros Ho; constructor; [exact Ha | exact (Hnb Ho)]|].
           apply lone_bare_cons; [exact Hl|]. intros Hb. congruence.
        -- intros (Hok & Hnb & Hl). inversion Hok; subst.
           split; [assumption|].
           split; [|exact (lone_bare_tail _ _ Hl)].
           intros Ho. specialize (Hnb Ho). inversion Hnb; assumption.
      * destruct (process_arg_rejects o m a Ha Hp) as [e ->].
        split; [intros [st H]; discriminate|].
        intros (Hok & _). inversion Hok as [|? ? [H|H] ?]; congruence.
Qed.

(** The output name the loop ends with. *)
Lemma for_args_output_name (l : list string) :
  forall (o o' : option string) (m m' : gmap string string),
    for_args self (o, m) l = inr (o', m') ->
    o' = match last (List.filter is_bare l) with
         | Some b => Some b
         | None => o
         end.
Proof.
  induction l as [|a l IH]; intros o o' m m' H.
  - cbn in H. injection H as <- <-. reflexivity.
  - cbn [for_args] in H. cbn [List.filter]. destruct (is_bare a) eqn:Ha.
    + rewrite (process_arg_is_bare _ _ _ Ha) in H.
      destruct (PyStr.truthy o); [discriminate|].
      apply IH in H. rewrite last_cons.
      destruct (last (List.filter is_bare l)); exact H.
    + destruct (process_arg self (o, m) a) as [e|[o1 m1]] eqn:E;
        [discriminate|].
      destruct (process_arg_files _ _ _ _ _ Ha E) as [-> _].
      exact (IH _ _ _ _ H).
Qed.

(** The dict the loop ends with, key by key. *)
Lemma for_args_overrides (key : string) (l : list string) :
  forall (o o' : option string) (m m' : gmap string string),
    for_args self (o, m) l = inr (o', m') ->
    m' !! key = match last_value key l with
                | Some v => Some v
                | None => m !! key
                end.
Proof.
  unfold last_value.
  induction l as [|a l IH]; intros o o' m m' H.
  - cbn in H. injection H as <- <-. reflexivity.
  - cbn [for_args] in H.
    destruct (process_arg self (o, m) a) as [e|[o1 m1]] eqn:E;
      [discriminate|].
    apply IH in H. rewrite H. clear H. cbn [omap list_omap].
    destruct (is_bare a) eqn:Ha.
    + unfold value_for. rewrite (is_bare_no_override _ Ha).
      rewrite (process_arg_is_bare _ _ _ Ha) in E.
      destruct (PyStr.truthy o); [discriminate|]. injection E as _ <-.
      reflexivity.
    + destruct (process_arg_files _ _ _ _ _ Ha E)
        as (-> & k & v & Hov & -> & _).
      unfold value_for at 2. rewrite Hov.
      destruct (String.eqb_spec k key) as [->|Hne].
      * rewrite last_cons.
        destruct (last (omap (value_for key) l)); [reflexivity|].
        apply lookup_insert_eq.
      * destruct (last (omap (value_for key) l)); [reflexivity|].
        apply lookup_insert_ne, Hne.
Qed.

(** Every entry of the dict was there before or comes from a token. *)
Lemma for_args_entries (k v : string) (l : list string) :
  forall (o o' : option string) (m m' : gmap string string),
    for_args self (o, m) l = inr (o', m') ->
    m' !! k = Some v ->
    m !! k = Some v \/ (In (pair_token k v) l /\ filed k v).
Proof.
  induction l as [|a l IH]; intros o o' m m' H Hkv.
  - cbn in H. injection H as <- <-. left. exact Hkv.
  - cbn [for_args] in H.
    destruct (process_arg self (o, m) a) as [e|[o1 m1]] eqn:E;
      [discriminate|].
    destruct (IH _ _ _ _ H Hkv) as [H1|[Hin Hf]];
      [|right; split; [right; exact Hin | exact Hf]].
    destruct (is_bare a) eqn:Ha.
    + rewrite (process_arg_is_bare _ _ _ Ha) in E.
      destruct (PyStr.truthy o); [discriminate|]. injection E as _ <-.
      left. exact H1.
    + destruct (process_arg_files _ _ _ _ _ Ha E)
        as (-> & k0 & v0 & Hov & -> & Hsvn).
      destruct (String.eqb_spec k0 k) as [->|Hne].
      * rewrite lookup_insert_eq in H1. injection H1 as ->.
        destruct (override_of_pair _ _ _ Hov) as (-> & Hn & Hk & Hv).
        right. split; [left; reflexivity|]. repeat split; assumption.
      * rewrite lookup_insert_ne in H1 by exact Hne. left. exact H1.
Qed.

(** The loop on the tokens [__call__] builds from a dict. *)
Lemma for_args_filed_pairs (kvs : list (string * string)) :
  forall (o : option string) (m : gmap string string),
    Forall (fun kv => filed kv.1 kv.2) kvs ->
    for_args self (o, m) (map (fun kv => kv.1 +:+ "=" +:+ kv.2) kvs)
    = inr (o, foldl (fun m kv => <[kv.1 := kv.2]> m) m kvs).
Proof.
  induction kvs as [|[k v] kvs IH]; intros o m H; [reflexivity|].
  inversion H as [|? ? (Hne & Hk & Hv & Hsvn) H']; subst.
  cbn [map for_args foldl fst snd].
  change (k +:+ "=" +:+ v) with (pair_token k v).
  rewrite process_arg_pair by assumption. cbn [fst snd] in Hsvn.
  rewrite Hsvn. exact (IH _ _ H').
Qed.

End ParseFacts.

Lemma foldl_insert_list_to_map (kvs : list (string * string)) :
  forall m0 : gmap string string,
    foldl (fun m kv => <[kv.1 := kv.2]> m) m0 kvs
    = list_to_map (reverse kvs) ∪ m0.
Proof.
  induction kvs as [|[k v] kvs IH]; intros m0; cbn [foldl fst snd].
  - symmetry. apply (left_id_L ∅ (∪)).
  - rewrite IH, reverse_cons, list_to_map_app. cbn [list_to_map foldr].
    rewrite <- (assoc_L (∪)). f_equal.
    rewrite insert_empty. cbn [fst snd]. apply insert_union_singleton_l.
Qed.

Lemma foldl_insert_items (m : gmap string string)
  (items : list (string * string)) :
  items ≡ₚ map_to_list m ->
  foldl (fun m kv => <[kv.1 := kv.2]> m) ∅ items = m.
Proof.
  intros Hperm.
  rewrite foldl_insert_list_to_map, (right_id_L ∅ (∪)).
  transitivity (list_to_map (map_to_list m) : gmap string string);
    [|apply list_to_map_to_list].
  apply list_to_map_proper.
  - rewrite fmap_reverse, reverse_Permutation, Hperm.
    apply NoDup_fst_map_to_list.
  - rewrite reverse_Permutation. exact Hperm.
Qed.

(** ** The second bare token *)

Section SecondBareToken.

Variable self : Runner.




End SecondBareToken.




(** ** More about [_process_args] *)

(** X1. Once the tokens before it have passed, a token that starts with
    [=] makes the parse raise the [SyntaxError] that carries the token. *)
Theorem X1_leading_equals_is_a_syntax_error
  (self : Runner) (template_name : string) (pre post : list string)
  (rest : string) (st : arg_state)
  (Hpre : for_args self (None, ∅) pre = inr st) :
  snd (_process_args self (template_name :: pre ++ String "=" rest :: post))
  = inl (SyntaxError (String "=" rest)).
Proof.
  cbn [_process_args snd]. rewrite for_args_app, Hpre. cbn [for_args].
  destruct st as [o m]. unfold process_arg. cbn [PyStr.find].
  rewrite Ascii.eqb_refl. reflexivity.
Qed.

Lemma X1_witness :
  snd (_process_args templer_runner ["skel"; "foo.bar"; "=me"; "a=1"])
  = inl (SyntaxError "=me").
Proof.
  exact (X1_leading_equals_is_a_syntax_error
           templer_runner "skel" ["foo.bar"] ["a=1"] "me"
           (Some "foo.bar", ∅) eq_refl).
Defined.

Lemma parse_accepts
  (self : Runner) (template_name : string) (args : list string) :
  (exists res, snd (_process_args self (template_name :: args)) = inr res)
  <-> Forall (fun a => is_bare a = true \/ plain_pair a = true) args
      /\ lone_bare args.
Proof.
  cbn [_process_args snd].
  pose proof (for_args_accepts self args None ∅) as H.
  split.
  - intros [res Hres]. apply proj1 in H.
    destruct (for_args self (None, ∅) args) as [e|st]; [discriminate|].
    destruct H as (Hok & _ & Hl); eauto.
  - intros [Hok Hl]. apply proj2 in H.
    destruct H as [[o m] ->]; [|eauto].
    split; [exact Hok|]. split; [discriminate | exact Hl].
Qed.

(** X2. The parse returns exactly when every token after the first is
    either without [=] or a [key=value] the script files, and every token
    without [=] that has another such token after it is the empty string. *)
Theorem X2_parse_returns_iff
  (self : Runner) (template_name : string) (args : list string) :
  (exists res, snd (_process_args self (template_name :: args)) = inr res)
  <-> Forall (fun a => is_bare a = true \/ plain_pair a = true) args
      /\ lone_bare args.
Proof. exact (parse_accepts self template_name args). Qed.

Lemma X2_witness :
  Forall (fun a => is_bare a = true \/ plain_pair a = true)
    [""; "a=1"; "foo.bar"; "b=2"]
  /\ lone_bare [""; "a=1"; "foo.bar"; "b=2"].
Proof.
  apply (proj1 (X2_parse_returns_iff
                  templer_runner "skel" [""; "a=1"; "foo.bar"; "b=2"])).
  eexists. vm_compute. reflexivity.
Defined.

(** X3. When the parse returns, the template name is the first token and
    the output name is the last token without [=] among the others, [None]
    when there is none. *)
Theorem X3_template_and_output_name
  (self : Runner) (args : list string) (template_name : string)
  (output_name : option string) (others : gmap string string)
  (Hres : snd (_process_args self args)
          = inr (template_name, output_name, others)) :
  head args = Some template_name
  /\ output_name = last (List.filter is_bare (tail args)).
Proof.
  destruct args as [|t args]; [discriminate|]. cbn [_process_args snd] in Hres.
  destruct (for_args self (None, ∅) args) as [e|[o m]] eqn:E; [discriminate|].
  injection Hres as -> -> ->. split; [reflexivity|].
  rewrite (for_args_output_name self _ _ _ _ _ E).
  cbn [tail]. destruct (last (List.filter is_bare args)); reflexivity.
Qed.

Lemma X3_witness :
  head ["skel"; "a=1"; ""; "b=2"; "foo.bar"; "c=3"] = Some "skel"
  /\ Some "foo.bar"
     = last (List.filter is_bare
               (tail ["skel"; "a=1"; ""; "b=2"; "foo.bar"; "c=3"])).
Proof.
  apply (X3_template_and_output_name templer_runner
           ["skel"; "a=1"; ""; "b=2"; "foo.bar"; "c=3"] "skel"
           (Some "foo.bar") {[ "a" := "1"; "b" := "2"; "c" := "3" ]}).
  vm_compute. reflexivity.
Defined.

(** X4. When the parse returns, a key of [others] holds the value of the
    last token that is a pair for that key, and a key no token is a pair
    for is not in [others]. *)
Theorem X4_others_holds_the_last_value
  (self : Runner) (args : list string) (template_name : string)
  (output_name : option string) (others : gmap string string) (key : string)
  (Hres : snd (_process_args self args)
          = inr (template_name, output_name, others)) :
  others !! key = last_value key (tail args).
Proof.
  destruct args as [|t args]; [discriminate|]. cbn [_process_args snd] in Hres.
  destruct (for_args self (None, ∅) args) as [e|[o m]] eqn:E; [discriminate|].
  injection Hres as -> -> ->.
  rewrite (for_args_overrides self key _ _ _ _ _ E). cbn [tail].
  destruct (last_value key args); [reflexivity | apply lookup_empty].
Qed.

Lemma X4_witness :
  ({[ "a" := "3"; "b" := "2" ]} : gmap string string) !! "a"
  = last_value "a" (tail ["skel"; "a=1"; "foo"; "b=2"; "a=3"]).
Proof.
  apply (X4_others_holds_the_last_value templer_runner
           ["skel"; "a=1"; "foo"; "b=2"; "a=3"] "skel" (Some "foo")).
  vm_compute. reflexivity.
Defined.

Lemma parse_entries (self : Runner) (args : list string)
  (template_name : string) (output_name : option string)
  (others : gmap string string) (key val : string) :
  snd (_process_args self args) = inr (template_name, output_name, others) ->
  others !! key = Some val ->
  In (pair_token key val) (tail args) /\ filed key val.
Proof.
  intros Hres Hentry.
  destruct args as [|t args]; [discriminate|]. cbn [_process_args snd] in Hres.
  destruct (for_args self (None, ∅) args) as [e|[o m]] eqn:E; [discriminate|].
  injection Hres as -> -> ->.
  destruct (for_args_entries self key val _ _ _ _ _ E Hentry) as [H|H].
  - rewrite lookup_empty in H. discriminate.
  - exact H.
Qed.

(** X5. When the parse returns, every entry of [others] comes from a token
    [key=value] of the command line; its key is not empty, holds no [=]
    and no [svn-repository], and its value holds no [=]. *)
Theorem X5_others_entries_are_filed_tokens
  (self : Runner) (args : list string) (template_name : string)
  (output_name : option string) (others : gmap string string)
  (key val : string)
  (Hres : snd (_process_args self args)
          = inr (template_name, output_name, others))
  (Hentry : others !! key = Some val) :
  In (pair_token key val) (tail args) /\ filed key val.
Proof. exact (parse_entries _ _ _ _ _ _ _ Hres Hentry). Qed.

Lemma X5_witness :
  In (pair_token "author" "me") (tail ["skel"; "foo.bar"; "author=me"])
  /\ filed "author" "me".
Proof.
  apply (X5_others_entries_are_filed_tokens templer_runner
           ["skel"; "foo.bar"; "author=me"] "skel" (Some "foo.bar")
           {[ "author" := "me" ]}).
  - vm_compute. reflexivity.
  - vm_compute. reflexivity.
Defined.

(** X6. The [key=value] tokens [__call__] builds from the [others] of a
    parse that returned parse again to the same [others], with no output
    name, in whatever order the items of the dict are listed. *)
Theorem X6_optslist_parses_back
  (self : Runner) (args : list string) (template_name : string)
  (output_name : option string) (others : gmap string string)
  (items : list (string * string))
  (Hres : snd (_process_args self args)
          = inr (template_name, output_name, others))
  (Hitems : items ≡ₚ map_to_list others) :
  snd (_process_args self (template_name :: optslist items))
  = inr (template_name, None, others).
Proof.
  cbn [_process_args snd]. unfold optslist.
  rewrite (for_args_filed_pairs self).
  - rewrite (foldl_insert_items others items Hitems). reflexivity.
  - apply List.Forall_forall. intros [k v] Hin.
    apply list_elem_of_In in Hin. rewrite Hitems in Hin.
    apply elem_of_map_to_list in Hin.
    exact (proj2 (parse_entries self args template_name output_name
                    others k v Hres Hin)).
Qed.

Lemma X6_witness :
  snd (_process_args templer_runner
         ("skel" :: optslist [("b", "2"); ("a", "3")]))
  = inr ("skel", None, {[ "a" := "3"; "b" := "2" ]})
  /\ snd (_process_args templer_runner
            ("skel" :: optslist [("a", "3"); ("b", "2")]))
     = inr ("skel", None, {[ "a" := "3"; "b" := "2" ]}).
Proof.
  assert (snd (_process_args templer_runner
                 ["skel"; "a=1"; "foo"; "b=2"; "a=3"])
          = inr ("skel", Some "foo", {[ "a" := "3"; "b" := "2" ]})) as Hres.
  { vm_compute. reflexivity. }
  assert (map_to_list ({[ "a" := "3"; "b" := "2" ]} : gmap string string)
          = [("a", "3"); ("b", "2")]) as Hlist.
  { vm_compute. reflexivity. }
  split.
  - apply (X6_optslist_parses_back templer_runner _ _ _ _ _ Hres).
    rewrite Hlist. apply Permutation_swap.
  - apply (X6_optslist_parses_back templer_runner _ _ _ _ _ Hres).
    rewrite Hlist. reflexivity.
Defined.

(** ** Facts about the listing and the name resolution *)

Lemma sum_concat (A : Type) (lists : list (list A)) (acc : list A) :
  fold_left (@app A) lists acc = (acc ++ concat lists)%list.
Proof.
  revert acc. induction lists as [|l lists IH]; intros acc; cbn.
  - symmetry. apply List.app_nil_r.
  - rewrite IH. symmetry. apply List.app_assoc.
Qed.

Lemma concat_nonempty (A : Type) (lists : list (list A)) :
  concat lists <> [] <-> exists l, In l lists /\ l <> [].
Proof.
  induction lists as [|l lists IH]; cbn [concat].
  - split; [contradiction | intros (l & [] & _)].
  - destruct l as [|x l].
    + cbn [app]. rewrite IH. split.
      * intros (l' & Hin & Hne). exists l'. split; [right|]; assumption.
      * intros (l' & [<-|Hin] & Hne); [contradiction | eauto].
    + split; [|discriminate]. intros _. exists (x :: l).
      split; [left; reflexivity | discriminate].
Qed.

Lemma listing_returns_iff (self : Runner) (cats : list (string * list entry)) :
  (exists text, _list_printable_templates self cats = inr text)
  <-> exists cat, In cat cats /\ cat.2 <> [].
Proof.
  assert ((exists text, _list_printable_templates self cats = inr text)
          <-> concat (map snd cats) <> []) as ->.
  { unfold _list_printable_templates, Py.sum. rewrite sum_concat. cbn [app].
    destruct (concat (map snd cats)) as [|e l]; cbn.
    - split; [intros [text H]; discriminate | contradiction].
    - split; [discriminate | eauto]. }
  rewrite concat_nonempty. split.
  - intros (l & Hin & Hne). apply List.in_map_iff in Hin as (cat & <- & Hin).
    eauto.
  - intros (cat & Hin & Hne). exists cat.2. split; [|exact Hne].
    apply List.in_map, Hin.
Qed.

Lemma listing_error (self : Runner) (cats : list (string * list entry))
  (e : exn) :
  _list_printable_templates self cats = inl e ->
  e = ValueError "max() arg is an empty sequence".
Proof.
  unfold _list_printable_templates.
  destruct (map _ _); cbn; congruence.
Qed.

Lemma usage_cases (self : Runner) (cats : list (string * list entry)) :
  usage self cats false
  = match _list_printable_templates self cats with
    | inl _ => inl (ValueError "max() arg is an empty sequence")
    | inr _ => inr tt
    end.
Proof.
  unfold usage.
  destruct (_list_printable_templates self cats) as [e|text] eqn:E;
    [|reflexivity].
  rewrite (listing_error _ _ _ E). reflexivity.
Qed.

Lemma process_arg_error (self : Runner) (st : arg_state) (arg : string)
  (e : exn) :
  process_arg self st arg = inl e -> forall code, e <> SystemExit code.
Proof.
  destruct st as [o m]. unfold process_arg, too_many.
  destruct (_ && _); [discriminate|].
  destruct (0 <? _); [|intros [= <-]; discriminate].
  destruct (PyStr.split "=" arg) as [|k [|v [|]]];
    try (intros [= <-]; discriminate).
  destruct (PyStr.contains _ _); [intros [= <-]|]; discriminate.
Qed.

Lemma parse_error (self : Runner) (argv : list string) (e : exn) :
  snd (_process_args self argv) = inl e -> forall code, e <> SystemExit code.
Proof.
  destruct argv as [|t args]; cbn [_process_args snd].
  - intros [= <-]. discriminate.
  - generalize (@pair (option string) _ None (∅ : gmap string string)).
    induction args as [|a args IH]; intros st; cbn [for_args].
    + destruct st. discriminate.
    + destruct (process_arg self st a) as [e'|st'] eqn:E.
      * intros [= <-]. exact (process_arg_error _ _ _ _ E).
      * apply IH.
Qed.

Lemma parse_pops (self : Runner) (argv : list string) :
  fst (_process_args self argv) = tail argv.
Proof. destruct argv; reflexivity. Qed.

Lemma checkdots_cases (self : Runner) (template : Template) (n : string) :
  (_checkdots self template n = inr tt /\ PyStr.count "." n <= 5)
  \/ (_checkdots self template n = inl black_hole /\ 5 < PyStr.count "." n).
Proof.
  unfold _checkdots. destruct (Z.ltb_spec 5 (PyStr.count "." n)); auto.
Qed.

(** What name resolution yields, case by case. *)
Lemma resolve_name_cases (self : Runner) (template : Template)
  (o : option string) (answers : list string) :
  match resolve_name self template o answers with
  | Waiting => PyStr.truthy o = false /\ answers = []
  | Done (inl e) unread =>
      (e = black_hole
       /\ ((PyStr.truthy o = true /\ unread = answers
            /\ exists n, o = Some n /\ 5 < PyStr.count "." n)
           \/ (PyStr.truthy o = false
               /\ exists a, answers = a :: unread
                            /\ a <> "q" /\ 5 < PyStr.count "." a)))
      \/ (e = SystemExit 0
          /\ PyStr.truthy o = false /\ answers = "q" :: unread)
  | Done (inr n) unread =>
      PyStr.count "." n <= 5
      /\ ((o = Some n /\ PyStr.truthy o = true /\ unread = answers)
          \/ (PyStr.truthy o = false /\ answers = n :: unread /\ n <> "q"))
  end.
Proof.
  assert (match prompt_loop self template answers with
          | Waiting => answers = []
          | Done (inl e) unread =>
              (e = black_hole
               /\ exists a, answers = a :: unread
                            /\ a <> "q" /\ 5 < PyStr.count "." a)
              \/ (e = SystemExit 0 /\ answers = "q" :: unread)
          | Done (inr n) unread =>
              PyStr.count "." n <= 5 /\ answers = n :: unread /\ n <> "q"
          end) as Hloop.
  { destruct answers as [|a rest]; [reflexivity|].
    cbn [prompt_loop]. unfold prompt_body.
    destruct (String.eqb_spec a "q") as [->|Hq]; [right; auto|].
    destruct (checkdots_cases self template a) as [[-> H]|[-> H]]; eauto 8. }
  unfold resolve_name. destruct o as [n|].
  - destruct (PyStr.truthy (Some n)) eqn:Ht.
    + destruct (checkdots_cases self template n) as [[-> H]|[-> H]];
        eauto 10.
    + destruct (prompt_loop self template answers) as [|[e|n'] unread];
        [auto | | ].
      * destruct Hloop as [[-> H]|[-> H]]; auto 6.
      * destruct Hloop as (H1 & H2 & H3). auto 6.
  - cbn [PyStr.truthy].
    destruct (prompt_loop self template answers) as [|[e|n'] unread];
      [auto | | ].
    + destruct Hloop as [[-> H]|[-> H]]; auto 6.
    + destruct Hloop as (H1 & H2 & H3). auto 6.
Qed.

Lemma mem_In (x : string) (l : list string) : Py.mem x l = true <-> In x l.
Proof.
  unfold Py.mem. rewrite List.existsb_exists. split.
  - intros (y & Hin & ->%String.eqb_eq). exact Hin.
  - intros Hin. exists x. split; [exact Hin | apply String.eqb_refl].
Qed.

(** [__call__] case by case, in terms of what the parse returns. *)
Lemma call_cases (self : Runner)
  (items : gmap string string -> list (string * string))
  (cats : list (string * list entry))
  (entry_points : string -> list Template)
  (command_run : list string -> run_result)
  (answers argv : list string) :
  let c := __call__ self items cats entry_points command_run answers argv in
  let no_listing := ValueError "max() arg is an empty sequence" in
  let ending (cmd : list string) :=
    match command_run cmd with
    | Returned => SystemExit 0
    | KeyboardInterrupt => SystemExit 0
    | Failed e => e
    end in
  match snd (_process_args self argv) with
  | inl e =>
      generator_args c = None /\ unread c = answers
      /\ raised c
         = Some match e, _list_printable_templates self cats with
                | SyntaxError _, inl _ => no_listing
                | _, _ => e
                end
  | inr (t, o, opts) =>
      match entry_points t with
      | [] =>
          generator_args c = None /\ unread c = answers
          /\ raised c
             = Some match _list_printable_templates self cats with
                    | inl _ => no_listing
                    | inr _ => SystemExit 1
                    end
      | template :: _ =>
          if Py.mem "--list-variables" (tail argv) then
            let cmd :=
              (["-q"; "-t"; t] ++ optslist (items opts) ++ ["--list-variables"])%list in
            generator_args c = Some cmd /\ unread c = answers
            /\ raised c = Some (ending cmd)
          else
            match resolve_name self template o answers with
            | Waiting =>
                generator_args c = None /\ unread c = [] /\ raised c = None
            | Done (inl e) u =>
                generator_args c = None /\ unread c = u /\ raised c = Some e
            | Done (inr n) u =>
                let cmd := (["-q"; "-t"; t] ++ n :: optslist (items opts))%list in
                generator_args c = Some cmd /\ unread c = u
                /\ raised c = Some (ending cmd)
            end
      end
  end.
Proof.
  cbn zeta. unfold __call__. pose proof (parse_pops self argv) as Hpop.
  destruct (_process_args self argv) as [argv' [e|[[t o] opts]]].
  - cbn [snd]. rewrite usage_cases.
    destruct e; destruct (_list_printable_templates self cats); auto.
  - cbn [snd fst] in *. subst argv'.
    destruct (entry_points t) as [|template rest].
    + rewrite usage_cases.
      destruct (_list_printable_templates self cats); auto.
    + destruct (Py.mem "--list-variables" (tail argv)); [auto|].
      destruct (resolve_name self template o answers) as [|[e|n] u];
        [auto | auto |].
      cbn [raised generator_args unread]. rewrite List.app_nil_r. auto.
Qed.

(** ** [__call__] *)

(** X7. The call ends with exit status 1 without running the generator
    exactly when the command line parsed, no entry point is registered
    under the template name, and the listing of templates can be printed.
    A command line that does not parse never ends with exit status 1. *)
Theorem X7_exit_status_one_means_unknown_template
  (self : Runner) (items : gmap string string -> list (string * string))
  (cats : list (string * list entry))
  (entry_points : string -> list Template)
  (command_run : list string -> run_result)
  (answers argv : list string) :
  let c := __call__ self items cats entry_points command_run answers argv in
  (raised c = Some (SystemExit 1) /\ generator_args c = None)
  <-> exists t o opts,
        snd (_process_args self argv) = inr (t, o, opts)
        /\ entry_points t = []
        /\ exists text, _list_printable_templates self cats = inr text.
Proof.
  cbn zeta.
  pose proof (call_cases self items cats entry_points command_run answers argv) as H.
  cbn zeta in H.
  destruct (snd (_process_args self argv)) as [e|[[t o] opts]] eqn:E.
  - destruct H as (_ & _ & ->). split.
    + intros [[= H] _]. exfalso.
      pose proof (parse_error self argv e E 1) as Hne.
      destruct e; destruct (_list_printable_templates self cats);
        congruence.
    + intros (? & ? & ? & ? & _). discriminate.
  - destruct (entry_points t) as [|template rest] eqn:Ept.
    + destruct H as (-> & _ & ->).
      destruct (_list_printable_templates self cats) as [e|text]; split.
      * intros [? _]. discriminate.
      * intros (? & ? & ? & _ & _ & ? & ?). discriminate.
      * intros _. exists t, o, opts. eauto.
      * intros _. auto.
    + split.
      * intros [Hr Hg]. exfalso.
        destruct (Py.mem "--list-variables" (tail argv)).
        -- destruct H as (H & _). congruence.
        -- pose proof (resolve_name_cases self template o answers) as Hn.
           destruct (resolve_name self template o answers) as [|[e|n] u].
           ++ destruct H as (_ & _ & H). congruence.
           ++ destruct H as (_ & _ & H).
              destruct Hn as [[-> _]|[-> _]]; unfold black_hole in H;
                congruence.
           ++ destruct H as (H & _). congruence.
      * intros (t' & o' & opts' & [= <- <- <-] & Hnil & _). congruence.
Qed.

Lemma X7_witness :
  raised (__call__ templer_runner map_to_list
            [("Core", [{| entry_name := "basic_namespace";
                          entry_summary := "A basic namespace" |}])]
            (fun _ => []) (fun _ => Returned) [] ["nosuch"; "foo"])
  = Some (SystemExit 1).
Proof.
  refine (proj1 (proj2 (X7_exit_status_one_means_unknown_template
                          templer_runner map_to_list _ (fun _ => []) (fun _ => Returned)
                          [] ["nosuch"; "foo"]) _)).
  exists "nosuch", (Some "foo"), ∅. repeat split. eexists. reflexivity.
Defined.

(** X8. The call ends with exit status 0 without running the generator
    exactly when the operator was prompted and answered [q]: the command
    line parsed, the template exists, [--list-variables] is not among the
    tokens after the first, and no non-empty output name was given. *)
Theorem X8_exit_without_generator_means_quit
  (self : Runner) (items : gmap string string -> list (string * string))
  (cats : list (string * list entry))
  (entry_points : string -> list Template)
  (command_run : list string -> run_result)
  (answers argv : list string) :
  let c := __call__ self items cats entry_points command_run answers argv in
  (raised c = Some (SystemExit 0) /\ generator_args c = None)
  <-> exists t o opts rest,
        snd (_process_args self argv) = inr (t, o, opts)
        /\ entry_points t <> []
        /\ Py.mem "--list-variables" (tail argv) = false
        /\ PyStr.truthy o = false
        /\ answers = "q" :: rest.
Proof.
  cbn zeta.
  pose proof (call_cases self items cats entry_points command_run answers argv) as H.
  cbn zeta in H.
  destruct (snd (_process_args self argv)) as [e|[[t o] opts]] eqn:E.
  - destruct H as (_ & _ & ->). split.
    + intros [[= H] _]. exfalso.
      pose proof (parse_error self argv e E 0) as Hne.
      destruct e; destruct (_list_printable_templates self cats);
        congruence.
    + intros (? & ? & ? & ? & ? & _). discriminate.
  - destruct (entry_points t) as [|template rest] eqn:Ept.
    + destruct H as (_ & _ & ->). split.
      * intros [? _].
        destruct (_list_printable_templates self cats); discriminate.
      * intros (t' & ? & ? & ? & [= <- <- <-] & Hne & _). congruence.
    + destruct (Py.mem "--list-variables" (tail argv)) eqn:Hm.
      * destruct H as (H & _). split; [intros [_ ?]; congruence|].
        intros (? & ? & ? & ? & _ & _ & ? & _). discriminate.
      * pose proof (resolve_name_cases self template o answers) as Hn.
        destruct (resolve_name self template o answers) as [|[e|n] u].
        -- destruct H as (_ & _ & H). split; [intros [? _]; congruence|].
           intros (? & ? & ? & ? & _ & _ & _ & _ & ?).
           destruct Hn. congruence.
        -- destruct H as (Hg & _ & ->). split.
           ++ intros [[= ->] _].
              destruct Hn as [[Hbh _]|(_ & Ht & ->)]; [discriminate|].
              exists t, o, opts, u. rewrite Ept.
              repeat split; auto; discriminate.
           ++ intros (t' & o' & ? & rest' & [= <- <- <-] & _ & _ & Ht & ->).
              split; [|exact Hg].
              destruct Hn as [(_ & [(Ht' & _)|(_ & a & [= <- <-] & Hq & _)])
                             |(-> & _)];
                [congruence | contradiction | reflexivity].
        -- destruct H as (H & _). split; [intros [_ ?]; congruence|].
           intros (t' & o' & ? & rest' & [= <- <- <-] & _ & _ & Ht & ->).
           destruct Hn as (_ & [(_ & Ht' & _)|(_ & [= <- _] & Hq)]);
             congruence.
Qed.

Lemma X8_witness :
  raised (__call__ templer_runner map_to_list [] (fun _ => [basic_namespace])
            (fun _ => Returned) ["q"; "foo.bar"] ["basic_namespace"; "a=1"])
  = Some (SystemExit 0)
  /\ generator_args
       (__call__ templer_runner map_to_list [] (fun _ => [basic_namespace])
          (fun _ => Returned) ["q"; "foo.bar"] ["basic_namespace"; "a=1"])
     = None.
Proof.
  apply (proj2 (X8_exit_without_generator_means_quit
                  templer_runner map_to_list [] (fun _ => [basic_namespace])
                  (fun _ => Returned) ["q"; "foo.bar"]
                  ["basic_namespace"; "a=1"])).
  exists "basic_namespace", None, {[ "a" := "1" ]}, ["foo.bar"].
  split; [vm_compute; reflexivity|]. split; [discriminate|].
  split; [reflexivity|]. split; reflexivity.
Defined.

(** X9. Whenever the generator is run, the command line parsed and the
    template exists, and the generator gets [-q -t <template>] followed
    either by the overrides and [--list-variables], with no output name,
    or by an output name of at most five dots and the overrides. *)
Theorem X9_what_the_generator_is_run_with
  (self : Runner) (items : gmap string string -> list (string * string))
  (cats : list (string * list entry))
  (entry_points : string -> list Template)
  (command_run : list string -> run_result)
  (answers argv cmd : list string)
  (Hrun : generator_args
            (__call__ self items cats entry_points command_run answers argv)
          = Some cmd) :
  exists t o opts,
    snd (_process_args self argv) = inr (t, o, opts)
    /\ entry_points t <> []
    /\ ((Py.mem "--list-variables" (tail argv) = true
         /\ cmd = (["-q"; "-t"; t] ++ optslist (items opts)
                   ++ ["--list-variables"])%list)
        \/ (Py.mem "--list-variables" (tail argv) = false
            /\ exists n,
                 cmd = (["-q"; "-t"; t] ++ n :: optslist (items opts))%list
                 /\ PyStr.count "." n <= 5)).
Proof.
  pose proof (call_cases self items cats entry_points command_run answers argv) as H.
  cbn zeta in H.
  destruct (snd (_process_args self argv)) as [e|[[t o] opts]].
  - destruct H as (H & _). congruence.
  - exists t, o, opts. split; [reflexivity|].
    destruct (entry_points t) as [|template rest].
    + destruct H as (H & _). congruence.
    + split; [discriminate|].
      destruct (Py.mem "--list-variables" (tail argv)).
      * destruct H as (H & _). left. split; congruence.
      * pose proof (resolve_name_cases self template o answers) as Hn.
        destruct (resolve_name self template o answers) as [|[e|n] u].
        -- destruct H as (H & _). congruence.
        -- destruct H as (H & _). congruence.
        -- destruct H as (H & _). destruct Hn as [Hn _].
           right. split; [reflexivity|]. exists n. split; congruence.
Qed.

Lemma X9_witness :
  exists t o opts,
    snd (_process_args templer_runner ["basic_namespace"; "c=2"; "a=1"])
    = inr (t, o, opts)
    /\ (fun _ : string => [basic_namespace]) t <> []
    /\ ((Py.mem "--list-variables" (tail ["basic_namespace"; "c=2"; "a=1"])
         = true
         /\ ["-q"; "-t"; "basic_namespace"; "foo.bar"; "a=1"; "c=2"]
            = (["-q"; "-t"; t]
               ++ optslist ((fun d => reverse (map_to_list d)) opts)
               ++ ["--list-variables"])%list)
        \/ (Py.mem "--list-variables" (tail ["basic_namespace"; "c=2"; "a=1"])
            = false
            /\ exists n,
                 ["-q"; "-t"; "basic_namespace"; "foo.bar"; "a=1"; "c=2"]
                 = (["-q"; "-t"; t]
                    ++ n :: optslist ((fun d => reverse (map_to_list d)) opts))%list
                 /\ PyStr.count "." n <= 5)).
Proof.
  apply (X9_what_the_generator_is_run_with
           templer_runner (fun d => reverse (map_to_list d)) []
           (fun _ => [basic_namespace]) (fun _ => Returned)
           ["foo.bar"] ["basic_namespace"; "c=2"; "a=1"]).
  vm_compute. reflexivity.
Defined.

(** X10. When the generator is run and [--list-variables] is among the
    tokens after the first, every other token after the first is a
    [key=value] the script files or the empty string, and the operator was
    not prompted: the flag does not go together with an output name. *)
Theorem X10_list_variables_excludes_an_output_name
  (self : Runner) (items : gmap string string -> list (string * string))
  (cats : list (string * list entry))
  (entry_points : string -> list Template)
  (command_run : list string -> run_result)
  (answers argv cmd : list string)
  (Hrun : generator_args
            (__call__ self items cats entry_points command_run answers argv)
          = Some cmd)
  (Hflag : In "--list-variables" (tail argv)) :
  Forall (fun a => plain_pair a = true \/ a = EmptyString
                   \/ a = "--list-variables") (tail argv)
  /\ unread (__call__ self items cats entry_points command_run answers argv)
     = answers.
Proof.
  pose proof (call_cases self items cats entry_points command_run answers argv) as H.
  cbn zeta in H.
  destruct (snd (_process_args self argv)) as [e|[[t o] opts]] eqn:E;
    [destruct H as (H & _); congruence|].
  apply mem_In in Hflag as Hmem.
  destruct (entry_points t) as [|template rest];
    [destruct H as (H & _); congruence|].
  rewrite Hmem in H. destruct H as (_ & Hu & _). split; [|exact Hu].
  destruct argv as [|t' args]; [discriminate|]. cbn [tail] in *.
  assert (exists res, snd (_process_args self (t' :: args)) = inr res)
    as Hok by eauto.
  apply parse_accepts in Hok as (Hall & Hlone).
  apply List.in_split in Hflag as (l1 & l2 & ->).
  assert (is_bare "--list-variables" = true) as Hlv by reflexivity.
  rewrite List.Forall_forall in *. intros a Ha.
  destruct (Hall a Ha) as [Hb|Hp]; [|auto].
  apply List.in_app_or in Ha as [Ha|[<-|Ha]]; [| auto |].
  - apply List.in_split in Ha as (x & y & ->). right. left.
    apply (Hlone x a y "--list-variables" l2); [|exact Hb | exact Hlv].
    rewrite <- List.app_assoc. reflexivity.
  - apply List.in_split in Ha as (x & y & ->). exfalso.
    assert ("--list-variables" = EmptyString) as Habs; [|discriminate].
    exact (Hlone l1 "--list-variables" x a y eq_refl Hlv Hb).
Qed.

Lemma X10_witness :
  Forall (fun a => plain_pair a = true \/ a = EmptyString
                   \/ a = "--list-variables")
    (tail ["basic_namespace"; "a=1"; "--list-variables"])
  /\ unread (__call__ templer_runner map_to_list [] (fun _ => [basic_namespace])
               (fun _ => Returned) ["foo.bar"]
               ["basic_namespace"; "a=1"; "--list-variables"])
     = ["foo.bar"].
Proof.
  apply (X10_list_variables_excludes_an_output_name
           templer_runner map_to_list [] (fun _ => [basic_namespace]) (fun _ => Returned)
           ["foo.bar"] ["basic_namespace"; "a=1"; "--list-variables"]
           ["-q"; "-t"; "basic_namespace"; "a=1"; "--list-variables"]).
  - vm_compute. reflexivity.
  - right. left. reflexivity.
Defined.

(** X11. A call reads at most one answer of the operator. *)
Theorem X11_at_most_one_answer_is_read
  (self : Runner) (items : gmap string string -> list (string * string))
  (cats : list (string * list entry))
  (entry_points : string -> list Template)
  (command_run : list string -> run_result)
  (answers argv : list string) :
  let c := __call__ self items cats entry_points command_run answers argv in
  unread c = answers \/ exists a, answers = a :: unread c.
Proof.
  cbn zeta.
  pose proof (call_cases self items cats entry_points command_run answers argv) as H.
  cbn zeta in H.
  destruct (snd (_process_args self argv)) as [e|[[t o] opts]];
    [destruct H as (_ & H & _); auto|].
  destruct (entry_points t) as [|template rest];
    [destruct H as (_ & H & _); auto|].
  destruct (Py.mem "--list-variables" (tail argv));
    [destruct H as (_ & H & _); auto|].
  pose proof (resolve_name_cases self template o answers) as Hn.
  destruct (resolve_name self template o answers) as [|[e|n] u];
    destruct H as (_ & -> & _).
  - destruct Hn as [_ ->]. auto.
  - destruct Hn as [(_ & [(_ & -> & _)|(_ & a & -> & _)])|(_ & _ & ->)];
      eauto.
  - destruct Hn as (_ & [(_ & _ & ->)|(_ & -> & _)]); eauto.
Qed.

(** X12. A command line that does not parse never reaches the prompt or
    the generator, and the call does not end with an exit status: it raises
    the exception of the parse whenever some template is registered for
    the listing. *)
Theorem X12_parse_errors_leave_the_call
  (self : Runner) (items : gmap string string -> list (string * string))
  (cats : list (string * list entry))
  (entry_points : string -> list Template)
  (command_run : list string -> run_result)
  (answers argv : list string) (e : exn)
  (Hparse : snd (_process_args self argv) = inl e) :
  let c := __call__ self items cats entry_points command_run answers argv in
  generator_args c = None
  /\ unread c = answers
  /\ (exists e', raised c = Some e' /\ forall code, e' <> SystemExit code)
  /\ ((exists cat, In cat cats /\ cat.2 <> []) -> raised c = Some e).
Proof.
  cbn zeta.
  pose proof (call_cases self items cats entry_points command_run answers argv) as H.
  cbn zeta in H. rewrite Hparse in H. destruct H as (-> & -> & ->).
  pose proof (parse_error self argv e Hparse) as Hne.
  split; [reflexivity|]. split; [reflexivity|]. split.
  - eexists. split; [reflexivity|]. intros code.
    destruct e; destruct (_list_printable_templates self cats);
      solve [apply Hne | discriminate].
  - intros Hcat.
    destruct (proj2 (listing_returns_iff self cats) Hcat) as [text ->].
    destruct e; reflexivity.
Qed.

Lemma X12_witness :
  raised (__call__ templer_runner map_to_list
            [("Core", [{| entry_name := "basic_namespace";
                          entry_summary := "A basic namespace" |}])]
            (fun _ => [basic_namespace]) (fun _ => Returned) ["foo.bar"]
            ["basic_namespace"; "foo"; "--list-variables"])
  = Some (SyntaxError "--list-variables").
Proof.
  refine (proj2 (proj2 (proj2 (X12_parse_errors_leave_the_call
                   templer_runner map_to_list _ (fun _ => [basic_namespace])
                   (fun _ => Returned) ["foo.bar"]
                   ["basic_namespace"; "foo"; "--list-variables"]
                   (SyntaxError "--list-variables") eq_refl))) _).
  eexists. split; [left; reflexivity | discriminate].
Defined.

(** ** Facts about the tables *)

Lemma len_nonneg (s : string) : 0 <= Py.len s.
Proof. unfold Py.len. lia. Qed.

Lemma len_mul_char (a : ascii) (n : Z) :
  Py.len (Py.mul (String a EmptyString) n) = Z.max 0 n.
Proof.
  unfold Py.mul, Py.len.
  assert (forall k, String.length
                      (Nat.iter k (String.append (String a EmptyString))
                         EmptyString) = k) as H.
  { induction k as [|k IH]; [reflexivity|].
    rewrite Nat.iter_succ.
    change (String a EmptyString +:+ ?x) with (String a x).
    cbn [String.length]. f_equal. exact IH. }
  rewrite H. lia.
Qed.

Lemma count_mul (c : ascii) (s : string) (n : Z) :
  PyStr.count c s = 0 -> PyStr.count c (Py.mul s n) = 0.
Proof.
  intros Hs. unfold Py.mul.
  induction (Z.to_nat n) as [|k IH]; [reflexivity|].
  rewrite Nat.iter_succ, count_app. lia.
Qed.

Lemma fold_max (xs : list Z) :
  forall a,
    let r := fold_left Z.max xs a in
    a <= r /\ Forall (fun y => y <= r) xs /\ (r = a \/ In r xs).
Proof.
  induction xs as [|x xs IH]; intros a; cbn [fold_left].
  - split; [lia|]. split; [constructor | left; reflexivity].
  - destruct (IH (Z.max a x)) as (H1 & H2 & H3).
    set (r := fold_left Z.max xs (Z.max a x)) in *.
    split; [lia|]. split.
    + constructor; [lia | exact H2].
    + destruct H3 as [H3|H3]; [|right; right; exact H3].
      destruct (Z.max_spec a x) as [[_ E]|[_ E]].
      * right. left. lia.
      * left. lia.
Qed.

Lemma max_bounds (l : list Z) (x : Z) :
  Py.max l = inr x -> Forall (fun y => y <= x) l /\ In x l.
Proof.
  destruct l as [|a xs]; [discriminate|]. cbn [Py.max]. intros [= <-].
  destruct (fold_max xs a) as (H1 & H2 & H3). split.
  - constructor; assumption.
  - destruct H3 as [->|H3]; [left; reflexivity | right; exact H3].
Qed.

(** Printing lines one after the other. *)
Lemma fold_print (A : Type) (f : A -> string) (l : list A) :
  forall s,
    fold_left (fun s x => Py.print_to s (f x)) l s
    = s +:+ fold_right (fun row acc => row +:+ newline +:+ acc)
              EmptyString (map f l).
Proof.
  induction l as [|x l IH]; intros s; cbn [fold_left map fold_right].
  - induction s as [|a s IHs]; [reflexivity|].
    change (String a s +:+ "") with (String a (s +:+ "")).
    rewrite <- IHs. reflexivity.
  - rewrite IH. unfold Py.print_to. rewrite !app_assoc_string. reflexivity.
Qed.

Lemma split_lines (rows : list string) :
  Forall (fun row => PyStr.count (ascii_of_nat 10) row = 0) rows ->
  PyStr.split (ascii_of_nat 10)
    (fold_right (fun row acc => row +:+ newline +:+ acc) EmptyString rows)
  = (rows ++ [EmptyString])%list.
Proof.
  induction rows as [|row rows IH]; intros H; [reflexivity|].
  inversion H as [|? ? Hrow Hrows]; subst. cbn [fold_right app].
  change (newline +:+ ?x) with (String (ascii_of_nat 10) x).
  rewrite (split_sep _ _ _ Hrow), (IH Hrows). reflexivity.
Qed.

Lemma version_line_len (maxpkg : Z) (vi : string * string) :
  Py.len vi.1 <= maxpkg ->
  Py.len ("| " +:+ vi.1 +:+ ":" +:+ Py.mul " " (maxpkg - Py.len vi.1) +:+ " ")
  = maxpkg + 4.
Proof.
  intros H. rewrite !len_app, len_mul_char.
  change (Py.len "| ") with 2. change (Py.len ":") with 1.
  change (Py.len " ") with 1. lia.
Qed.

Lemma version_line_one_line (maxpkg : Z) (vi : string * string) :
  PyStr.count (ascii_of_nat 10) vi.1 = 0 ->
  PyStr.count (ascii_of_nat 10) vi.2 = 0 ->
  PyStr.count (ascii_of_nat 10) (version_line maxpkg vi) = 0.
Proof.
  intros H1 H2. unfold version_line. cbn zeta.
  rewrite !count_app, H1, H2, count_mul by reflexivity. reflexivity.
Qed.

Lemma version_line_total_len (maxpkg : Z) (vi : string * string) :
  Py.len vi.1 <= maxpkg ->
  Py.len (version_line maxpkg vi) = maxpkg + 4 + Py.len vi.2.
Proof.
  intros H. unfold version_line. cbn zeta.
  rewrite !len_app, len_mul_char.
  change (Py.len "| ") with 2. change (Py.len ":") with 1.
  change (Py.len " ") with 1. lia.
Qed.

Lemma version_rule_len (maxpkg maxver : Z) :
  0 <= maxpkg -> 0 <= maxver ->
  Py.len (version_rule maxpkg maxver) = maxpkg + maxver + 4.
Proof.
  intros H1 H2. unfold version_rule. rewrite len_app, len_mul_char.
  change (Py.len "+") with 1. lia.
Qed.

Lemma max_of_lens_nonneg (A : Type) (f : A -> string) (l : list A) (x : Z) :
  Py.max (map (fun a => Py.len (f a)) l) = inr x -> 0 <= x.
Proof.
  intros [_ Hin]%max_bounds. apply List.in_map_iff in Hin as (a & <- & _).
  apply len_nonneg.
Qed.

(** ** The report modes *)

(** X13. [usage] needs a registered template: when some category holds
    one, [usage()] exits with status 0 and [usage(exit=False)] returns;
    when every category is empty, or there is none, both raise the
    [ValueError] of [max] on an empty list. *)
Theorem X13_usage_needs_a_template
  (self : Runner) (cats : list (string * list entry)) :
  ((exists cat, In cat cats /\ cat.2 <> [])
   /\ usage self cats true = inl (SystemExit 0)
   /\ usage self cats false = inr tt)
  \/ ((forall cat, In cat cats -> cat.2 = [])
      /\ usage self cats true
         = inl (ValueError "max() arg is an empty sequence")
      /\ usage self cats false
         = inl (ValueError "max() arg is an empty sequence")).
Proof.
  pose proof (listing_returns_iff self cats) as H. unfold usage.
  destruct (_list_printable_templates self cats) as [e|text] eqn:E.
  - right. rewrite (listing_error _ _ _ E). split; [|auto].
    intros [title items] Hin. destruct items as [|x items]; [reflexivity|].
    destruct (proj2 H) as [? ?]; [|discriminate].
    exists (title, x :: items). split; [exact Hin | discriminate].
  - left. split; [|auto]. apply H. eauto.
Qed.

(** X14. [show_version] of a runner without packages raises the
    [ValueError] of [max] on an empty list; with at least one package it
    exits with status 0, installed or not. *)
Theorem X14_show_version_needs_a_package
  (self : Runner) (get_distribution : string -> option (string * string))
  (versions : list string) :
  show_version self get_distribution versions
  = match versions with
    | [] => ValueError "max() arg is an empty sequence"
    | _ :: _ => SystemExit 0
    end.
Proof. destruct versions; reflexivity. Qed.

(** X15. The table of versions, for a header and entries without line
    breaks: its lines are an empty line, the header, the rule and one row
    per entry, in order; every row shows the name, a colon, blanks and the
    version, with the versions starting in one column; no row is longer
    than the rule and the longest is as long as it. *)
Theorem X15_version_table_layout
  (self : Runner) (version_info : list (string * string))
  (header out : string)
  (Hheader : PyStr.count (ascii_of_nat 10) header = 0)
  (Hentries : Forall (fun vi => PyStr.count (ascii_of_nat 10) vi.1 = 0
                                /\ PyStr.count (ascii_of_nat 10) vi.2 = 0)
                version_info)
  (Hout : _format_version_info self version_info (Some header) = inr out) :
  exists rule rows col,
    PyStr.split (ascii_of_nat 10) out
    = (EmptyString :: ("| " +:+ header) :: rule :: rows ++ [EmptyString])%list
    /\ Forall2
         (fun vi row =>
            exists k,
              row = "| " +:+ vi.1 +:+ ":" +:+ Py.mul " " k +:+ " " +:+ vi.2
              /\ Py.len ("| " +:+ vi.1 +:+ ":" +:+ Py.mul " " k +:+ " ") = col)
         version_info rows
    /\ Forall (fun row => Py.len row <= Py.len rule) rows
    /\ Exists (fun row => Py.len row = Py.len rule) rows.
Proof.
  unfold _format_version_info in Hout.
  destruct (Py.max (map (fun vi => Py.len vi.1) version_info))
    as [|maxpkg] eqn:Mp; [discriminate|].
  destruct (Py.max (map (fun vi => Py.len vi.2) version_info))
    as [|maxver] eqn:Mv; [discriminate|].
  injection Hout as <-.
  pose proof (max_of_lens_nonneg _ fst _ _ Mp) as Hp0.
  pose proof (max_of_lens_nonneg _ snd _ _ Mv) as Hv0.
  destruct (max_bounds _ _ Mp) as [Bp _].
  destruct (max_bounds _ _ Mv) as [Bv Iv].
  rewrite List.Forall_map in Bp, Bv.
  exists (version_rule maxpkg maxver),
    (map (version_line maxpkg) version_info), (maxpkg + 4).
  split; [|split; [|split]].
  - rewrite fold_print.
    transitivity
      (PyStr.split (ascii_of_nat 10)
         (String (ascii_of_nat 10)
            (("| " +:+ header)
             +:+ String (ascii_of_nat 10)
                   (version_rule maxpkg maxver
                    +:+ String (ascii_of_nat 10)
                          (fold_right
                             (fun row acc => row +:+ newline +:+ acc)
                             EmptyString
                             (map (version_line maxpkg) version_info)))))).
    { f_equal. unfold Py.print_to. rewrite !app_assoc_string. reflexivity. }
    change (PyStr.split (ascii_of_nat 10) (String (ascii_of_nat 10) ?x))
      with (EmptyString :: PyStr.split (ascii_of_nat 10) x).
    rewrite split_sep by (rewrite count_app, Hheader; reflexivity).
    rewrite split_sep
      by (unfold version_rule; rewrite count_app, count_mul; reflexivity).
    rewrite split_lines; [reflexivity|].
    rewrite List.Forall_map. revert Hentries. apply List.Forall_impl.
    intros vi [H1 H2]. apply version_line_one_line; assumption.
  - clear -Bp. induction Bp as [|vi l Hvi _ IH]; cbn [map]; constructor.
    + exists (maxpkg - Py.len vi.1). split; [reflexivity|].
      apply version_line_len, Hvi.
    + exact IH.
  - rewrite List.Forall_map. rewrite List.Forall_forall in *.
    intros vi Hin. rewrite version_line_total_len by exact (Bp vi Hin).
    rewrite version_rule_len by assumption. specialize (Bv vi Hin). lia.
  - apply List.in_map_iff in Iv as (vi & Hlen & Hin).
    apply List.Exists_exists. exists (version_line maxpkg vi).
    split; [apply List.in_map, Hin|].
    rewrite List.Forall_forall in Bp.
    rewrite version_line_total_len by exact (Bp vi Hin).
    rewrite version_rule_len by assumption. lia.
Qed.

Lemma X15_witness :
  exists out,
    _format_version_info templer_runner
      [("templer.core", "1.0b4"); ("templer.plone", "Not Installed")]
      (Some "Installed Templer Packages") = inr out
    /\ exists rule rows col,
         PyStr.split (ascii_of_nat 10) out
         = (EmptyString :: ("| " +:+ "Installed Templer Packages")
              :: rule :: rows ++ [EmptyString])%list
         /\ Forall2
              (fun vi row =>
                 exists k,
                   row = "| " +:+ vi.1 +:+ ":" +:+ Py.mul " " k
                         +:+ " " +:+ vi.2
                   /\ Py.len ("| " +:+ vi.1 +:+ ":" +:+ Py.mul " " k +:+ " ")
                      = col)
              [("templer.core", "1.0b4"); ("templer.plone", "Not Installed")]
              rows
         /\ Forall (fun row => Py.len row <= Py.len rule) rows
         /\ Exists (fun row => Py.len row = Py.len rule) rows.
Proof.
  eexists. split; [vm_compute; reflexivity|].
  apply (X15_version_table_layout templer_runner
           [("templer.core", "1.0b4"); ("templer.plone", "Not Installed")]
           "Installed Templer Packages").
  - reflexivity.
  - repeat constructor.
  - vm_compute. reflexivity.
Defined.

Lemma app_empty_string (s : string) : s +:+ EmptyString = s.
Proof.
  induction s as [|a s IH]; [reflexivity|].
  change (String a s +:+ "") with (String a (s +:+ "")).
  rewrite IH. reflexivity.
Qed.

Lemma join_lines_app (l1 l2 : list string) :
  join_lines (l1 ++ l2) = join_lines l1 +:+ join_lines l2.
Proof.
  induction l1 as [|a l1 IH]; [reflexivity|].
  cbn [app join_lines fold_right]. fold (join_lines (l1 ++ l2)).
  fold (join_lines l1). rewrite IH, !app_assoc_string. reflexivity.
Qed.

Lemma listing_rows_fold (max_name : Z) (items : list entry) :
  forall s,
    fold_left (fun s e => s +:+ template_line max_name e) items s
    = s +:+ join_lines (map (template_row max_name) items).
Proof.
  induction items as [|e items IH]; intros s; cbn [fold_left map].
  - symmetry. apply app_empty_string.
  - rewrite IH. cbn [join_lines fold_right].
    unfold template_line, template_row. rewrite !app_assoc_string.
    reflexivity.
Qed.

Lemma listing_fold (max_name : Z) (cats : list (string * list entry)) :
  forall s,
    fold_left
      (fun s cat =>
         fold_left (fun s e => s +:+ template_line max_name e) cat.2
           (Py.print_to s (newline +:+ cat.1 +:+ newline)))
      cats s
    = s +:+ join_lines (concat (map (category_block max_name) cats)).
Proof.
  induction cats as [|cat cats IH]; intros s; cbn [fold_left map concat].
  - symmetry. apply app_empty_string.
  - rewrite IH, listing_rows_fold, join_lines_app.
    unfold category_block, Py.print_to. cbn [join_lines fold_right].
    fold (join_lines (map (template_row max_name) cat.2)).
    rewrite !app_assoc_string. reflexivity.
Qed.

(** X16. The listing of templates, for titles, names and summaries without
    line breaks: each category gives an empty line, its title, an empty
    line and one row per template, in order; every row shows the name, a
    colon, blanks and the summary, and the summaries of all categories
    start in one column. *)
Theorem X16_template_listing_layout
  (self : Runner) (cats : list (string * list entry)) (out : string)
  (Htitles : Forall (fun cat => PyStr.count (ascii_of_nat 10) cat.1 = 0) cats)
  (Hentries :
     Forall (fun cat =>
               Forall (fun e =>
                         PyStr.count (ascii_of_nat 10) (entry_name e) = 0
                         /\ PyStr.count (ascii_of_nat 10) (entry_summary e)
                            = 0)
                 cat.2)
       cats)
  (Hout : _list_printable_templates self cats = inr out) :
  exists blocks col,
    PyStr.split (ascii_of_nat 10) out
    = (concat blocks ++ [EmptyString])%list
    /\ Forall2
         (fun cat block =>
            exists rows,
              block = EmptyString :: cat.1 :: EmptyString :: rows
              /\ Forall2
                   (fun e row =>
                      exists k,
                        row = "|  " +:+ entry_name e +:+ ":"
                              +:+ Py.mul " " k +:+ " " +:+ entry_summary e
                        /\ Py.len ("|  " +:+ entry_name e +:+ ":"
                                   +:+ Py.mul " " k +:+ " ") = col)
                   cat.2 rows)
         cats blocks.
Proof.
  unfold _list_printable_templates, Py.sum in Hout.
  rewrite sum_concat in Hout. cbn [app] in Hout.
  destruct (Py.max _) as [|max_name] eqn:M; [discriminate|].
  injection Hout as <-.
  destruct (max_bounds _ _ M) as [B _]. rewrite List.Forall_map in B.
  exists (map (category_block max_name) cats), (max_name + 5).
  split.
  - rewrite listing_fold. cbn [String.append].
    apply split_lines. clear -Htitles Hentries.
    induction cats as [|cat cats IH]; [constructor|].
    inversion Htitles as [|? ? Ht Hts]; subst.
    inversion Hentries as [|? ? He Hes]; subst.
    cbn [map concat]. apply List.Forall_app. split; [|exact (IH Hts Hes)].
    unfold category_block. repeat constructor; [exact Ht|].
    rewrite List.Forall_map. revert He. apply List.Forall_impl.
    intros e [H1 H2]. unfold template_row.
    rewrite !count_app, H1, H2, count_mul by reflexivity. reflexivity.
  - clear -B. induction cats as [|cat cats IH]; [constructor|].
    cbn [map concat] in B. apply List.Forall_app in B as [Bc Bs].
    cbn [map]. constructor; [|exact (IH Bs)].
    exists (map (template_row max_name) cat.2). split; [reflexivity|].
    induction Bc as [|e l He _ IHl]; cbn [map]; constructor; [|exact IHl].
    exists (max_name - Py.len (entry_name e)). split; [reflexivity|].
    rewrite !len_app, len_mul_char.
    change (Py.len "|  ") with 3. change (Py.len ":") with 1.
    change (Py.len " ") with 1. lia.
Qed.

Lemma X16_witness :
  exists out,
    _list_printable_templates templer_runner
      [("Core", [{| entry_name := "basic_namespace";
                    entry_summary := "A basic namespace" |};
                 {| entry_name := "recipe"; entry_summary := "A recipe" |}]);
       ("Plone", [{| entry_name := "archetype";
                     entry_summary := "A Plone project" |}])]
    = inr out
    /\ exists blocks col,
         PyStr.split (ascii_of_nat 10) out
         = (concat blocks ++ [EmptyString])%list
         /\ Forall2
              (fun cat block =>
                 exists rows,
                   block = EmptyString :: cat.1 :: EmptyString :: rows
                   /\ Forall2
                        (fun e row =>
                           exists k,
                             row = "|  " +:+ entry_name e +:+ ":"
                                   +:+ Py.mul " " k +:+ " "
                                   +:+ entry_summary e
                             /\ Py.len ("|  " +:+ entry_name e +:+ ":"
                                        +:+ Py.mul " " k +:+ " ") = col)
                        cat.2 rows)
              [("Core", [{| entry_name := "basic_namespace";
                            entry_summary := "A basic namespace" |};
                         {| entry_name := "recipe";
                            entry_summary := "A recipe" |}]);
               ("Plone", [{| entry_name := "archetype";
                             entry_summary := "A Plone project" |}])]
              blocks.
Proof.
  eexists. split; [vm_compute; reflexivity|].
  apply (X16_template_listing_layout templer_runner).
  - repeat constructor.
  - repeat constructor.
  - vm_compute. reflexivity.
Defined.
